(** * Receipt issuance page ([src/pages/invoicing/RecibosPage.tsx])

    A shallow embedding of the receipt page: its local state, the
    [loadCorrelative], [handleDniSearch] and [onSubmit] handlers, and the
    external collaborators they call.  Handlers are written in a small
    state / exception / trace monad; every call to an external collaborator
    is recorded, with its arguments and its result, in a chronological
    trace, so that ordering properties of the submit saga can be stated on
    that trace. *)

From Stdlib Require Import String Ascii List ZArith QArith Lia.
From Stdlib Require Import Decimal DecimalString DecimalNat.
From stdpp Require Import base option list gmap strings.

Local Open Scope string_scope.
Local Open Scope list_scope.

(** ** JavaScript values used by the page *)

(** An [Error] object; only its [message] is read by the page. *)
Record Error := mkError { message : string }.

(** Outcome of an awaited call: it resolves with a value or it throws. *)
Inductive Result (A : Type) : Type :=
| Ok (a : A)
| Throw (e : Error).
Arguments Ok {A} a.
Arguments Throw {A} e.

(** A JavaScript number.  A finite number is kept as the exact
    mathematical value of its literal, in lowest terms; the rounding to an
    IEEE double and the sign of zero are not represented. *)
Inductive JsNumber :=
| NaN
| Infinity (negative : bool)
| Finite (mv : Q).

Module JsString.

(** [!s] on a string: only the empty string is falsy. *)
Definition falsy (s : string) : bool :=
  match s with EmptyString => true | _ => false end.

(** [a || b] on strings. *)
Definition or_else (a b : string) : string :=
  if falsy a then b else a.

(** White space of [StrWhiteSpaceChar] in the ASCII range: TAB, LF, VT,
    FF, CR and SP. *)
Definition is_ws (c : ascii) : bool :=
  let n := nat_of_ascii c in
  (((9 <=? n) && (n <=? 13)) || (n =? 32))%nat.

Fixpoint drop_ws (l : list ascii) : list ascii :=
  match l with
  | c :: l' => if is_ws c then drop_ws l' else l
  | [] => []
  end.

Definition trim (l : list ascii) : list ascii :=
  rev (drop_ws (rev (drop_ws l))).

(** Value of a digit in the given radix (2, 8, 10 or 16). *)
Definition digit_of (radix : Z) (c : ascii) : option Z :=
  let n := Z.of_nat (nat_of_ascii c) in
  let v :=
    (if (48 <=? n) && (n <=? 57) then Some (n - 48)
     else if (97 <=? n) && (n <=? 102) then Some (n - 87)
     else if (65 <=? n) && (n <=? 70) then Some (n - 55)
     else None)%Z in
  match v with
  | Some d => if (d <? radix)%Z then Some d else None
  | None => None
  end.

Fixpoint digits_from (radix acc : Z) (l : list ascii) : option Z :=
  match l with
  | [] => Some acc
  | c :: l' =>
      match digit_of radix c with
      | Some d => digits_from radix (acc * radix + d)%Z l'
      | None => None
      end
  end.

(** One or more digits. *)
Definition digits1 (radix : Z) (l : list ascii) : option Z :=
  match l with
  | [] => None
  | _ => digits_from radix 0 l
  end.

(** Cut a list at the first character satisfying [p]; the second
    component is what follows that character, when there is one. *)
Fixpoint cut (p : ascii -> bool) (l : list ascii)
  : list ascii * option (list ascii) :=
  match l with
  | [] => ([], None)
  | c :: l' =>
      if p c then ([], Some l')
      else let (a, b) := cut p l' in (c :: a, b)
  end.

Definition is_char (x : ascii) (c : ascii) : bool := Ascii.eqb x c.

(** [SignedInteger] of an [ExponentPart]. *)
Definition signed_integer (l : list ascii) : option Z :=
  match l with
  | "+"%char :: l' => digits1 10 l'
  | "-"%char :: l' => option_map Z.opp (digits1 10 l')
  | _ => digits1 10 l
  end.

(** [StrUnsignedDecimalLiteral], [Infinity] apart: digits with an
    optional fraction and an optional exponent. *)
Definition unsigned_decimal (l : list ascii) : option Q :=
  let '(mant, expo) := cut (fun c => is_char "e" c || is_char "E" c) l in
  let '(ip, fp) := cut (is_char ".") mant in
  let e :=
    match expo with
    | None => Some 0%Z
    | Some x => signed_integer x
    end in
  let frac := match fp with Some f => f | None => [] end in
  let wellformed :=
    match ip, fp with
    | [], None => false
    | [], Some [] => false
    | _, _ => true
    end in
  match digits_from 10 0 ip, digits_from 10 0 frac, e with
  | Some i, Some f, Some e =>
      if wellformed then
        let k := Z.of_nat (List.length frac) in
        Some (Qred (inject_Z (i * 10 ^ k + f)%Z * Qpower (10 # 1) (e - k)%Z)%Q)
      else None
  | _, _, _ => None
  end.

Definition infinity_lit : list ascii := list_ascii_of_string "Infinity".

Definition list_ascii_eqb (a b : list ascii) : bool :=
  String.eqb (string_of_list_ascii a) (string_of_list_ascii b).

Definition str_decimal (l : list ascii) : JsNumber :=
  let '(neg, body) :=
    match l with
    | "+"%char :: l' => (false, l')
    | "-"%char :: l' => (true, l')
    | _ => (false, l)
    end in
  if list_ascii_eqb body infinity_lit then Infinity neg
  else match unsigned_decimal body with
       | Some q => Finite (if neg then Qred (- q)%Q else q)
       | None => NaN
       end.

Definition of_radix (radix : Z) (l : list ascii) : JsNumber :=
  match digits1 radix l with
  | Some n => Finite (inject_Z n)
  | None => NaN
  end.

(** [Number(s)] for a string argument ([StringToNumber]): white space is
    trimmed, the empty string is [+0], then a decimal literal or a
    prefixed binary, octal or hexadecimal integer; anything else is
    [NaN]. *)
Definition Number (s : string) : JsNumber :=
  match trim (list_ascii_of_string s) with
  | [] => Finite 0
  | "0"%char :: "x"%char :: l | "0"%char :: "X"%char :: l => of_radix 16 l
  | "0"%char :: "o"%char :: l | "0"%char :: "O"%char :: l => of_radix 8 l
  | "0"%char :: "b"%char :: l | "0"%char :: "B"%char :: l => of_radix 2 l
  | l => str_decimal l
  end.

End JsString.

(** ** Data of the page *)

Section PageModel.

(** The types the page only passes around are left open: the member
    identifier ([Client['id']]), the rendered PDF ([Blob]) and the state
    of everything outside the page (back end, storage, clock). *)
Context {ClientId Blob World : Type}.

(** [Client] of [@/lib/types/invoicing], with the fields the page reads. *)
Record Client := mkClient {
  id : ClientId;
  razon_social : string;
  numero_documento : string
}.

(** [ReciboPagoFormValues]: the fields of the form (lines 32-41). *)
Record ReciboPagoFormValues := mkValues {
  dni : string;
  client_name : string;
  client_id : option ClientId;
  fecha_emision : string;
  monto : JsNumber;
  concepto : string;
  metodo_pago : string;
  numero_operacion : string
}.

(** [receiptData] (lines 125-130): the form values spread, plus three
    fields. *)
Record ReceiptData := mkReceiptData {
  receipt_values : ReciboPagoFormValues;
  receipt_correlative : string;
  client_full_name : string;
  client_dni : string
}.

(** [incomeData] (lines 140-149): a row of the table [ingresos]. *)
Record IncomeData := mkIncomeData {
  receipt_number : string;
  income_dni : string;
  full_name : string;
  amount : JsNumber;
  account : string;
  date : string;
  transaction_type : string;
  numeroOperacion : option JsNumber
}.

Inductive ToastVariant := VariantDefault | VariantDestructive | VariantWarning.

(** The download button of the success notification: it offers the blob
    under a file name. *)
Record DownloadAction := mkDownload {
  download_blob : Blob;
  download_name : string
}.

Record Toast := mkToast {
  title : string;
  description : string;
  variant : ToastVariant;
  action : option DownloadAction;
  duration : option Z
}.

(** The local state of the component: the four [useState] cells and the
    values held by the form. *)
Record PageState := mkPage {
  isSearching : bool;
  isSubmitting : bool;
  correlative : string;
  clientData : option Client;
  form : ReciboPagoFormValues
}.

(** What the page does to the outside, in the order it does it: each
    call to a collaborator with its arguments and its result, and each
    notification. *)
Inductive Event :=
| EvFetchNext (r : Result string)
| EvLookup (document : string) (r : Result (option Client))
| EvImport (r : Result unit)
| EvRender (data : ReceiptData) (r : Result Blob)
| EvPut (blob : Blob) (key : string) (member : ClientId) (r : Result unit)
| EvAppend (row : IncomeData) (r : Result unit)
| EvConsole (e : Error)
| EvToast (t : Toast).

(** The collaborators imported by the page ([@/lib/api/invoicingApi],
    [@/lib/receiptPdfGenerator], [date-fns]); their code is not part of
    the page, so they are taken as functions on the outside world.
    [today] is [format(new Date(), 'yyyy-MM-dd')] and [truthy_id] is the
    truth value JavaScript gives to a member identifier. *)
Record Api := mkApi {
  fetchNextReceiptCorrelative : World -> Result string * World;
  fetchClientByDocument : string -> World -> Result (option Client) * World;
  importReceiptPdfGenerator : World -> Result unit * World;
  generateReceiptPdf : ReceiptData -> World -> Result Blob * World;
  saveReceiptPdfToSupabase :
    Blob -> string -> ClientId -> World -> Result unit * World;
  createIncomeFromBoleta : IncomeData -> World -> Result unit * World;
  today : World -> string;
  truthy_id : ClientId -> bool
}.

(** ** The monad of handlers *)

Record Sigma := mkSigma {
  page : PageState;
  world : World;
  trace : list Event
}.

(** A handler transforms page, world and trace, and either returns or
    throws; the state reached when it throws is kept, as in JavaScript. *)
Definition M (A : Type) : Type := Sigma -> Result A * Sigma.

Definition ret {A} (a : A) : M A := fun s => (Ok a, s).

Definition bind {A B} (m : M A) (k : A -> M B) : M B :=
  fun s =>
    match m s with
    | (Ok a, s') => k a s'
    | (Throw e, s') => (Throw e, s')
    end.

(** [try { m } catch (error) { h error }] *)
Definition try_catch {A} (m : M A) (h : Error -> M A) : M A :=
  fun s =>
    match m s with
    | (Ok a, s') => (Ok a, s')
    | (Throw e, s') => h e s'
    end.

(** [try { m } finally { f }] *)
Definition finally {A} (m : M A) (f : M unit) : M A :=
  fun s =>
    match m s with
    | (r, s') =>
        match f s' with
        | (Ok _, s'') => (r, s'')
        | (Throw e, s'') => (Throw e, s'')
        end
    end.

Definition get_page : M PageState := fun s => (Ok (page s), s).

Definition modify_page (f : PageState -> PageState) : M unit :=
  fun s => (Ok tt, mkSigma (f (page s)) (world s) (trace s)).

Definition emit (e : Event) : M unit :=
  fun s => (Ok tt, mkSigma (page s) (world s) (trace s ++ [e])).

(** An awaited call to a collaborator: the world moves, the call and its
    result are appended to the trace, and a thrown error propagates. *)
Definition call {A} (f : World -> Result A * World)
    (ev : Result A -> Event) : M A :=
  fun s =>
    let (r, w) := f (world s) in
    (r, mkSigma (page s) w (trace s ++ [ev r])).

(** A call whose promise is not awaited: the call is made and the world
    answers it, but the caller goes on at once; the answer is handed back
    as a value instead of being thrown or returned. *)
Definition call_detached {A} (f : World -> Result A * World)
    (ev : Result A -> Event) : M (Result A) :=
  fun s =>
    let (r, w) := f (world s) in
    (Ok r, mkSigma (page s) w (trace s ++ [ev r])).

(** The [await] of a promise that has settled with [r]. *)
Definition settle {A} (r : Result A) : M A := fun s => (r, s).

Definition read_world {A} (f : World -> A) : M A :=
  fun s => (Ok (f (world s)), s).

Definition toast (t : Toast) : M unit := emit (EvToast t).
Definition console_error (e : Error) : M unit := emit (EvConsole e).

Notation "'let*' x ':=' m 'in' k" := (bind m (fun x => k))
  (at level 10, x name, m at level 100, k at level 200).

(** ** State setters *)

Definition setIsSearching (b : bool) : M unit :=
  modify_page (fun p =>
    mkPage b (isSubmitting p) (correlative p) (clientData p) (form p)).

Definition setIsSubmitting (b : bool) : M unit :=
  modify_page (fun p =>
    mkPage (isSearching p) b (correlative p) (clientData p) (form p)).

Definition setCorrelative (c : string) : M unit :=
  modify_page (fun p =>
    mkPage (isSearching p) (isSubmitting p) c (clientData p) (form p)).

Definition setClientData (c : option Client) : M unit :=
  modify_page (fun p =>
    mkPage (isSearching p) (isSubmitting p) (correlative p) c (form p)).

Definition form_reset (v : ReciboPagoFormValues) : M unit :=
  modify_page (fun p =>
    mkPage (isSearching p) (isSubmitting p) (correlative p) (clientData p) v).

(** [form.setValue('client_name', n)] and [form.setValue('client_id', i)] *)
Definition form_set_client (n : string) (i : option ClientId) : M unit :=
  modify_page (fun p =>
    let v := form p in
    mkPage (isSearching p) (isSubmitting p) (correlative p) (clientData p)
      (mkValues (dni v) n i (fecha_emision v) (monto v) (concepto v)
         (metodo_pago v) (numero_operacion v))).

(** ** The page *)

Variable api : Api.

(** [defaultValues] (lines 32-41, and again lines 180-189), given the
    date of the day. *)
Definition defaultValues (d : string) : ReciboPagoFormValues :=
  mkValues "" "" None d (Finite (250 # 1))
    "Elaboracion de Expediente Tecnico" "Efectivo" "".

(** The state of a page that has just been mounted, before its effect
    runs. *)
Definition initial_page (w : World) : PageState :=
  mkPage false false "" None (defaultValues (today api w)).

Definition correlative_toast : Toast :=
  mkToast "Error de Correlativo"
    "No se pudo obtener el siguiente número de recibo (R-00xxx)."
    VariantDestructive None None.

(** [loadCorrelative] (lines 47-61), from its call to its return, as a
    caller that awaits it would see it. *)
Definition loadCorrelative : M string :=
  try_catch
    (let* nextCorrelative :=
       call (fetchNextReceiptCorrelative api) EvFetchNext in
     let* _ := setCorrelative nextCorrelative in
     ret nextCorrelative)
    (fun error =>
       let* _ := console_error error in
       let* _ := toast correlative_toast in
       ret "").

(** [loadCorrelative()] where its promise is not awaited (lines 64 and
    191): it runs up to its own [await] on line 49, that is, the call to
    the sequencer is made, and the caller goes on. *)
Definition loadCorrelative_start : M (Result string) :=
  call_detached (fetchNextReceiptCorrelative api) EvFetchNext.

(** The rest of [loadCorrelative] (lines 49-60), run when the call to the
    sequencer has settled with [answer], on the page as it is by then. *)
Definition loadCorrelative_resume (answer : Result string) : M string :=
  try_catch
    (let* nextCorrelative := settle answer in
     let* _ := setCorrelative nextCorrelative in
     ret nextCorrelative)
    (fun error =>
       let* _ := console_error error in
       let* _ := toast correlative_toast in
       ret "").

(** The mount effect (lines 63-65): [loadCorrelative()] is called and not
    awaited. *)
Definition on_mount : M unit :=
  let* _ := loadCorrelative_start in ret tt.

Definition not_found_toast : Toast :=
  mkToast "Socio No Encontrado"
    "No se encontró un socio titular con ese DNI." VariantWarning None None.

(** [handleDniSearch] (lines 67-109). *)
Definition handleDniSearch : M unit :=
  let* p := get_page in
  let dni := dni (form p) in
  if JsString.falsy dni || negb (String.length dni =? 8)%nat then
    toast (mkToast "DNI Inválido" "Ingrese un DNI de 8 dígitos."
             VariantWarning None None)
  else
    let* _ := setIsSearching true in
    let* _ := setClientData None in
    let* _ := form_set_client "" None in
    finally
      (try_catch
         (let* client :=
            call (fetchClientByDocument api dni) (EvLookup dni) in
          match client with
          | Some c =>
              if truthy_id api (id c) then
                let* _ := setClientData (Some c) in
                let* _ := form_set_client (razon_social c) (Some (id c)) in
                toast (mkToast "Socio Encontrado"
                  ("Datos cargados para: " +:+ razon_social c)
                  VariantDefault None None)
              else toast not_found_toast
          | None => toast not_found_toast
          end)
         (fun error =>
            toast (mkToast "Error de Búsqueda" (message error)
                     VariantDestructive None None)))
      (setIsSearching false).

(** [incomeData] as [onSubmit] builds it (lines 140-149). *)
Definition build_incomeData (values : ReciboPagoFormValues)
    (correlative : string) (client : Client) : IncomeData :=
  mkIncomeData
    correlative
    (dni values)
    (razon_social client)
    (monto values)
    (metodo_pago values)
    (fecha_emision values)
    "Recibo de Pago"
    (if String.eqb (metodo_pago values) "BBVA Empresa"
     then Some (JsString.Number (numero_operacion values))
     else None).

Definition incomplete_toast : Toast :=
  mkToast "Datos Incompletos"
    "Asegúrese de buscar y cargar los datos del socio y que el correlativo esté disponible."
    VariantDestructive None None.

Definition success_toast (correlative : string) (pdfBlob : Blob) : Toast :=
  mkToast "Recibo Generado y Registrado"
    ("El Recibo N° " +:+ correlative +:+
     " ha sido creado, guardado y el ingreso registrado.")
    VariantDefault
    (Some (mkDownload pdfBlob (correlative +:+ ".pdf")))
    (Some 8000%Z).

Definition failure_toast (error : Error) : Toast :=
  mkToast "Error al Generar Recibo"
    (JsString.or_else (message error) "Ocurrió un error inesperado.")
    VariantDestructive None None.

(** [onSubmit] (lines 111-203).  [correlative] and [clientData] are the
    values the handler closed over, that is those of the state it is
    called in.  The last call, [loadCorrelative()] on line 191, is not
    awaited: the call to the sequencer is made, then [onSubmit] goes on to
    its [finally] block and returns; what [loadCorrelative] does with the
    answer ([loadCorrelative_resume]) happens after [onSubmit] has
    returned. *)
Definition onSubmit (values : ReciboPagoFormValues) : M unit :=
  let* p := get_page in
  match clientData p with
  | None => toast incomplete_toast
  | Some clientData =>
      if negb (truthy_id api (id clientData))
         || JsString.falsy (correlative p)
      then toast incomplete_toast
      else
        let correlative := correlative p in
        let* _ := setIsSubmitting true in
        finally
          (try_catch
             (let receiptData :=
                mkReceiptData values correlative
                  (razon_social clientData) (numero_documento clientData) in
              let* _ := call (importReceiptPdfGenerator api) EvImport in
              let* pdfBlob :=
                call (generateReceiptPdf api receiptData)
                     (EvRender receiptData) in
              let* _ :=
                call (saveReceiptPdfToSupabase api pdfBlob correlative
                        (id clientData))
                     (EvPut pdfBlob correlative (id clientData)) in
              let incomeData :=
                build_incomeData values correlative clientData in
              let* _ :=
                call (createIncomeFromBoleta api incomeData)
                     (EvAppend incomeData) in
              let* _ := toast (success_toast correlative pdfBlob) in
              let* d := read_world (today api) in
              let* _ := form_reset (defaultValues d) in
              let* _ := setClientData None in
              let* _ := loadCorrelative_start in
              ret tt)
             (fun error =>
                let* _ := console_error error in
                toast (failure_toast error)))
          (setIsSubmitting false)
  end.

(** [disabled] of the submit button (line 351). *)
Definition submit_disabled (p : PageState) : bool :=
  isSubmitting p
  || match clientData p with None => true | Some _ => false end
  || JsString.falsy (correlative p).

(** ** Validation in front of [onSubmit] *)

Inductive Reason :=
| AmountNotPositive
| ConceptEmpty
| OperationReferenceMismatch.

Definition positive_amount (n : JsNumber) : bool :=
  match n with
  | Finite q => (0 <? Qnum q)%Z
  | _ => false
  end.

(** Modelled from the spec: [ReciboPagoFormSchema] of
    [@/lib/types/invoicing] is not among the sources.  The spec (section
    3 and step 1 of section 4.3) asks for: amount > 0, concept non-empty,
    operation reference non-empty iff the payment method is the first
    bank account, which the page spells ['BBVA Empresa'].  [None] means
    that the values are accepted. *)
Definition ReciboPagoFormSchema (v : ReciboPagoFormValues) : option Reason :=
  if negb (positive_amount (monto v)) then Some AmountNotPositive
  else if JsString.falsy (concepto v) then Some ConceptEmpty
  else if Bool.eqb (negb (JsString.falsy (numero_operacion v)))
                   (String.eqb (metodo_pago v) "BBVA Empresa")
       then None
       else Some OperationReferenceMismatch.

Inductive SubmitOutcome :=
| ValidationFailed (reason : Reason)
| Submitted.

(** [form.handleSubmit(onValid)] of react-hook-form with a resolver (line
    224): the values of the form are checked first and [onValid] is
    called, with those values, only when the resolver accepts them. *)
Definition handleSubmit (onValid : ReciboPagoFormValues -> M unit)
  : M SubmitOutcome :=
  let* p := get_page in
  match ReciboPagoFormSchema (form p) with
  | Some reason => ret (ValidationFailed reason)
  | None => let* _ := onValid (form p) in ret Submitted
  end.

(** The operation the page exposes: submitting the form. *)
Definition issue : M SubmitOutcome := handleSubmit onSubmit.

(** ** Reading a trace *)

(** The steps of the saga that write to the outside or render. *)
Inductive Step := StepImport | StepRender | StepPut | StepAppend.

(** The step an event reports as thrown, if any. *)
Definition thrown_step (e : Event) : option Step :=
  match e with
  | EvImport (Throw _) => Some StepImport
  | EvRender _ (Throw _) => Some StepRender
  | EvPut _ _ _ (Throw _) => Some StepPut
  | EvAppend _ (Throw _) => Some StepAppend
  | _ => None
  end.

(** The first saga step that threw in a trace. *)
Fixpoint failed_step (t : list Event) : option Step :=
  match t with
  | [] => None
  | e :: t' =>
      match thrown_step e with
      | Some st => Some st
      | None => failed_step t'
      end
  end.

(** The error a saga step threw, if the event reports one. *)
Definition thrown_error (e : Event) : option Error :=
  match e with
  | EvImport (Throw x) => Some x
  | EvRender _ (Throw x) => Some x
  | EvPut _ _ _ (Throw x) => Some x
  | EvAppend _ (Throw x) => Some x
  | _ => None
  end.

(** The error of the first saga step that threw in a trace. *)
Fixpoint failed_error (t : list Event) : option Error :=
  match t with
  | [] => None
  | e :: t' =>
      match thrown_error e with
      | Some x => Some x
      | None => failed_error t'
      end
  end.

(** The answers the sequencer gave in a trace, in order. *)
Fixpoint answers (t : list Event) : list (Result string) :=
  match t with
  | [] => []
  | EvFetchNext r :: t' => r :: answers t'
  | _ :: t' => answers t'
  end.

(** Calls that reach outside the page to render or to write. *)
Definition is_external_write (e : Event) : bool :=
  match e with
  | EvImport _ | EvRender _ _ | EvPut _ _ _ _ | EvAppend _ _ => true
  | _ => false
  end.

Definition is_append (e : Event) : bool :=
  match e with EvAppend _ _ => true | _ => false end.

Definition is_fetch (e : Event) : bool :=
  match e with EvFetchNext _ => true | _ => false end.

(** The notifications of a trace, in order. *)
Fixpoint toasts (t : list Event) : list Toast :=
  match t with
  | [] => []
  | EvToast x :: t' => x :: toasts t'
  | _ :: t' => toasts t'
  end.

(** The errors written to the console, in order. *)
Fixpoint console (t : list Event) : list Error :=
  match t with
  | [] => []
  | EvConsole x :: t' => x :: console t'
  | _ :: t' => console t'
  end.

(** The correlatives handed to the renderer, in order. *)
Fixpoint rendered (t : list Event) : list string :=
  match t with
  | [] => []
  | EvRender d _ :: t' => receipt_correlative d :: rendered t'
  | _ :: t' => rendered t'
  end.

(** The receipt numbers of the rows the ledger accepted, in order. *)
Fixpoint recorded (t : list Event) : list string :=
  match t with
  | [] => []
  | EvAppend row (Ok _) :: t' => receipt_number row :: recorded t'
  | _ :: t' => recorded t'
  end.

(** The requirement "the correlative handed to the renderer was obtained
    from the sequencer during this run", in its weakest reading: a trace
    meets it when every render event carries a value that a successful
    call to the sequencer returned earlier in the same trace.  [seen]
    holds the values returned so far. *)
Fixpoint allocated_in_run (seen : list string) (t : list Event) : bool :=
  match t with
  | [] => true
  | EvFetchNext (Ok c) :: t' => allocated_in_run (c :: seen) t'
  | EvRender d _ :: t' =>
      existsb (String.eqb (receipt_correlative d)) seen
      && allocated_in_run seen t'
  | _ :: t' => allocated_in_run seen t'
  end.

(** What the caller of [onSubmit] can observe of a run: what it
    returned, the page it left, and what it showed and logged. *)
Definition observable (r : Result unit * Sigma)
  : Result unit * PageState * list Toast * list Error :=
  (fst r, page (snd r), toasts (trace (snd r)), console (trace (snd r))).

(** Running a handler from a page and a world, with an empty trace. *)
Definition run {A} (m : M A) (p : PageState) (w : World)
  : Result A * Sigma :=
  m (mkSigma p w []).

End PageModel.

Arguments Client : clear implicits.
Arguments ReciboPagoFormValues : clear implicits.
Arguments ReceiptData : clear implicits.
Arguments DownloadAction : clear implicits.
Arguments Toast : clear implicits.
Arguments PageState : clear implicits.
Arguments Event : clear implicits.
Arguments Api : clear implicits.
Arguments Sigma : clear implicits.
Arguments M : clear implicits.
(** ** The outcomes the spec asks for *)

(** Modelled from the spec: the classified result type of section 4.4; the
    page has no such type (its [onSubmit] returns nothing).  [Handle] is
    the artifact handle, an opaque reference. *)
Inductive SagaOutcome (Receipt Handle : Type) : Type :=
| Success (receipt : Receipt)
| OutcomeValidationFailed (reason : Reason)
| LookupNotFound
| SequencerUnavailable
| RenderFailed (spent_correlative : string)
| ArtifactStoreFailed (spent_correlative : string)
| LedgerWriteFailed (spent_correlative : string) (artifact_handle : Handle).
Arguments Success {Receipt Handle} receipt.
Arguments OutcomeValidationFailed {Receipt Handle} reason.
Arguments LookupNotFound {Receipt Handle}.
Arguments SequencerUnavailable {Receipt Handle}.
Arguments RenderFailed {Receipt Handle} spent_correlative.
Arguments ArtifactStoreFailed {Receipt Handle} spent_correlative.
Arguments LedgerWriteFailed {Receipt Handle} spent_correlative artifact_handle.

(** ** The Correlative Sequencer *)

Module Sequencer.

(** Modelled from the spec: the sequencer of section 4.1 is not among
    the sources (the page only calls [fetchNextReceiptCorrelative]).  Its
    backing store is one durable integer, the last number issued, and it
    may be unreachable. *)
Record Store := mkStore {
  counter : nat;
  reachable : bool
}.

Fixpoint zeros (k : nat) (s : string) : string :=
  match k with
  | O => s
  | S k' => String "0" (zeros k' s)
  end.

(** [s.padStart(width, '0')] *)
Definition pad_start (width : nat) (s : string) : string :=
  zeros (width - String.length s) s.

(** Modelled from the spec: a correlative is the number in decimal, at
    least five digits wide, behind the prefix [R-] (section 3). *)
Definition render (n : nat) : string :=
  "R-" +:+ pad_start 5 (NilZero.string_of_uint (Nat.to_uint n)).

(** The number a correlative stands for. *)
Definition number_of (c : string) : option nat :=
  match c with
  | String "R" (String "-" digits) =>
      option_map Nat.of_uint (NilEmpty.uint_of_string digits)
  | _ => None
  end.

(** Modelled from the spec: [peek] returns the value that would be
    allocated next and leaves the store as it is. *)
Definition peek (s : Store) : string * Store :=
  (render (S (counter s)), s).

Inductive Allocation :=
| Allocated (c : string)
| Unavailable.

(** Modelled from the spec: [allocate] reads the counter, increments it,
    persists it and returns the new value, in one atomic step; with the
    store out of reach it fails and issues nothing. *)
Definition allocate (s : Store) : Allocation * Store :=
  if reachable s
  then (Allocated (render (S (counter s))),
        mkStore (S (counter s)) (reachable s))
  else (Unavailable, s).

(** [peek] called [n] times in a row: the last value reported, if any,
    and the store afterwards. *)
Fixpoint peeks (n : nat) (last : option string) (s : Store)
  : option string * Store :=
  match n with
  | O => (last, s)
  | S n' => let (c, s') := peek s in peeks n' (Some c) s'
  end.

(** *** Concurrent callers

    [allocate] is atomic, so a run of concurrent callers is an
    interleaving of their commits.  A system is the store together with
    the value each call has returned so far, by call. *)
Record System := mkSystem {
  store : Store;
  returned : gmap nat string
}.

Inductive step : System -> System -> Prop :=
| step_commit (sys : System) (i : nat) (c : string) (st : Store) :
    returned sys !! i = None ->
    allocate (store sys) = (Allocated c, st) ->
    step sys (mkSystem st (<[i := c]> (returned sys)))
| step_unavailable (sys : System) (i : nat) (st : Store) :
    returned sys !! i = None ->
    allocate (store sys) = (Unavailable, st) ->
    step sys (mkSystem st (returned sys))
| step_outage (sys : System) (b : bool) :
    step sys (mkSystem (mkStore (counter (store sys)) b) (returned sys)).

Definition start (n : nat) : System := mkSystem (mkStore n true) ∅.

(** What holds of every system reached from [start n]: each value
    returned is the rendering of a number issued since the start, there
    are as many of them as the counter advanced, and no value was
    returned to two calls. *)
Definition consistent (n : nat) (sys : System) : Prop :=
  size (returned sys) + n = counter (store sys) /\
  (forall (i : nat) (c : string), returned sys !! i = Some c ->
     exists k, n < k <= counter (store sys) /\ c = render k) /\
  (forall (i j : nat) (c : string),
     returned sys !! i = Some c -> returned sys !! j = Some c -> i = j).

End Sequencer.

(** ** A scripted outside world

    A concrete world to run the page in: every collaborator answers with
    the next entry of its script, and throws once the script is used up.
    Member identifiers are numbers (zero is falsy), blobs are strings. *)

Module Scripted.

Record World := mkWorld {
  fetches : list (Result string);
  lookups : list (Result (option (Client nat)));
  imports : list (Result unit);
  renders : list (Result string);
  puts : list (Result unit);
  appends : list (Result unit);
  clock : string
}.

Definition exhausted {A} : Result A := Throw (mkError "script exhausted").

Definition next {A} (l : list (Result A)) : Result A * list (Result A) :=
  match l with
  | [] => (exhausted, [])
  | r :: l' => (r, l')
  end.

Definition api : Api nat string World :=
  mkApi
    (fun w => let (r, l) := next (fetches w) in
       (r, mkWorld l (lookups w) (imports w) (renders w) (puts w)
             (appends w) (clock w)))
    (fun _ w => let (r, l) := next (lookups w) in
       (r, mkWorld (fetches w) l (imports w) (renders w) (puts w)
             (appends w) (clock w)))
    (fun w => let (r, l) := next (imports w) in
       (r, mkWorld (fetches w) (lookups w) l (renders w) (puts w)
             (appends w) (clock w)))
    (fun _ w => let (r, l) := next (renders w) in
       (r, mkWorld (fetches w) (lookups w) (imports w) l (puts w)
             (appends w) (clock w)))
    (fun _ _ _ w => let (r, l) := next (puts w) in
       (r, mkWorld (fetches w) (lookups w) (imports w) (renders w) l
             (appends w) (clock w)))
    (fun _ w => let (r, l) := next (appends w) in
       (r, mkWorld (fetches w) (lookups w) (imports w) (renders w) (puts w)
             l (clock w)))
    clock
    (fun i => negb (i =? 0)%nat).

Definition member : Client nat := mkClient 7 "Ana Quispe" "12345678".

(** Form values for a cash payment and for a bank payment. *)
Definition cash : ReciboPagoFormValues nat :=
  mkValues "12345678" "Ana Quispe" (Some 7) "2024-05-01" (Finite (250 # 1))
    "Elaboracion de Expediente Tecnico" "Efectivo" "".

Definition bank (operation : string) : ReciboPagoFormValues nat :=
  mkValues "12345678" "Ana Quispe" (Some 7) "2024-05-01" (Finite (250 # 1))
    "Elaboracion de Expediente Tecnico" "BBVA Empresa" operation.

(** A page ready to submit: member loaded, correlative cached. *)
Definition ready (c : string) (v : ReciboPagoFormValues nat)
  : PageState nat :=
  mkPage false false c (Some member) v.

Definition boom {A} : Result A := Throw (mkError "boom").

(** Worlds in which, respectively, everything succeeds, the renderer
    throws, the artifact store throws, and the ledger throws. *)
Definition all_fine : World :=
  mkWorld [Ok "R-00043"] [] [Ok tt] [Ok "pdf"] [Ok tt] [Ok tt] "2024-05-02".

Definition render_throws : World :=
  mkWorld [Ok "R-00043"] [] [Ok tt; Ok tt] [boom; Ok "pdf"] [Ok tt] [Ok tt]
    "2024-05-02".

Definition put_throws : World :=
  mkWorld [Ok "R-00043"] [] [Ok tt] [Ok "pdf"] [boom] [Ok tt] "2024-05-02".

Definition append_throws : World :=
  mkWorld [Ok "R-00043"] [] [Ok tt] [Ok "pdf"] [Ok tt] [boom] "2024-05-02".

End Scripted.

(** ** The runs of [onSubmit], case by case *)

Section Runs.

Context {ClientId Blob World : Type}.
Variable api : Api ClientId Blob World.
Variable values : ReciboPagoFormValues ClientId.
Variable p : PageState ClientId.
Variable w : World.

(** The page with [isSubmitting] back to [false]. *)
Definition settled (q : PageState ClientId) : PageState ClientId :=
  mkPage (isSearching q) false (correlative q) (clientData q) (form q).

(** The page after the reset of the success path, [next] being the
    correlative it caches. *)
Definition reset_page (next : string) (d : string) : PageState ClientId :=
  mkPage (isSearching p) false next None (defaultValues d).

Definition guard_passes (client : Client ClientId) : Prop :=
  clientData p = Some client /\
  truthy_id api (id client) = true /\
  correlative p <> "".

Definition guard_fails : Prop :=
  clientData p = None \/
  (exists client, clientData p = Some client /\
                  truthy_id api (id client) = false) \/
  correlative p = "".

Definition receiptData_of (client : Client ClientId) : ReceiptData ClientId :=
  mkReceiptData values (correlative p)
    (razon_social client) (numero_documento client).

(** The six shapes a run of [onSubmit] can take, with the trace and the
    page each of them leaves. *)
Inductive SubmitRun : Result unit * Sigma ClientId Blob World -> Prop :=
| RunIncomplete :
    guard_fails ->
    SubmitRun (Ok tt, mkSigma p w [EvToast incomplete_toast])
| RunImportThrows client e w1 :
    guard_passes client ->
    importReceiptPdfGenerator api w = (Throw e, w1) ->
    SubmitRun (Ok tt, mkSigma (settled p) w1
      [EvImport (Throw e); EvConsole e; EvToast (failure_toast e)])
| RunRenderThrows client w1 e w2 :
    guard_passes client ->
    importReceiptPdfGenerator api w = (Ok tt, w1) ->
    generateReceiptPdf api (receiptData_of client) w1 = (Throw e, w2) ->
    SubmitRun (Ok tt, mkSigma (settled p) w2
      [EvImport (Ok tt); EvRender (receiptData_of client) (Throw e);
       EvConsole e; EvToast (failure_toast e)])
| RunPutThrows client w1 pdfBlob w2 e w3 :
    guard_passes client ->
    importReceiptPdfGenerator api w = (Ok tt, w1) ->
    generateReceiptPdf api (receiptData_of client) w1 = (Ok pdfBlob, w2) ->
    saveReceiptPdfToSupabase api pdfBlob (correlative p) (id client) w2
      = (Throw e, w3) ->
    SubmitRun (Ok tt, mkSigma (settled p) w3
      [EvImport (Ok tt); EvRender (receiptData_of client) (Ok pdfBlob);
       EvPut pdfBlob (correlative p) (id client) (Throw e);
       EvConsole e; EvToast (failure_toast e)])
| RunAppendThrows client w1 pdfBlob w2 w3 e w4 :
    guard_passes client ->
    importReceiptPdfGenerator api w = (Ok tt, w1) ->
    generateReceiptPdf api (receiptData_of client) w1 = (Ok pdfBlob, w2) ->
    saveReceiptPdfToSupabase api pdfBlob (correlative p) (id client) w2
      = (Ok tt, w3) ->
    createIncomeFromBoleta api
      (build_incomeData values (correlative p) client) w3 = (Throw e, w4) ->
    SubmitRun (Ok tt, mkSigma (settled p) w4
      [EvImport (Ok tt); EvRender (receiptData_of client) (Ok pdfBlob);
       EvPut pdfBlob (correlative p) (id client) (Ok tt);
       EvAppend (build_incomeData values (correlative p) client) (Throw e);
       EvConsole e; EvToast (failure_toast e)])
| RunSuccess client w1 pdfBlob w2 w3 w4 answer w5 :
    guard_passes client ->
    importReceiptPdfGenerator api w = (Ok tt, w1) ->
    generateReceiptPdf api (receiptData_of client) w1 = (Ok pdfBlob, w2) ->
    saveReceiptPdfToSupabase api pdfBlob (correlative p) (id client) w2
      = (Ok tt, w3) ->
    createIncomeFromBoleta api
      (build_incomeData values (correlative p) client) w3 = (Ok tt, w4) ->
    fetchNextReceiptCorrelative api w4 = (answer, w5) ->
    SubmitRun (Ok tt,
      mkSigma (reset_page (correlative p) (today api w4)) w5
      [EvImport (Ok tt); EvRender (receiptData_of client) (Ok pdfBlob);
       EvPut pdfBlob (correlative p) (id client) (Ok tt);
       EvAppend (build_incomeData values (correlative p) client) (Ok tt);
       EvToast (success_toast (correlative p) pdfBlob);
       EvFetchNext answer]).

End Runs.

(** ** Sample runs in the scripted world *)

Module Samples.

Import Scripted.

(** A bank payment submitted without operation number, everything
    succeeding. *)
Definition bank_run : Result unit * Sigma nat string World :=
  run (onSubmit api (bank "")) (ready "R-00042" (bank "")) all_fine.

Definition cash_run (w : World) : Result unit * Sigma nat string World :=
  run (onSubmit api cash) (ready "R-00042" cash) w.

(** A page on which no member has been looked up yet. *)
Definition no_member : PageState nat :=
  mkPage false false "R-00042" None cash.

(** The operator fills in the form. *)
Definition fill (v : ReciboPagoFormValues nat) (q : PageState nat)
  : PageState nat :=
  mkPage (isSearching q) (isSubmitting q) (correlative q) (clientData q) v.

Definition two_fetches : World :=
  mkWorld [Ok "R-00042"; Ok "R-00043"] [Ok (Some member)] [Ok tt] [Ok "pdf"]
    [Ok tt] [Ok tt] "2024-05-01".

(** Everything succeeds twice over, but the sequencer cannot be reached
    after the first receipt. *)
Definition refetch_throws : World :=
  mkWorld [Ok "R-00042"; boom] [Ok (Some member); Ok (Some member)]
    [Ok tt; Ok tt] [Ok "pdf"; Ok "pdf"] [Ok tt; Ok tt] [Ok tt; Ok tt]
    "2024-05-02".

(** Everything succeeds twice over, the sequencer included. *)
Definition twice_fine : World :=
  mkWorld [Ok "R-00042"; Ok "R-00043"; Ok "R-00044"]
    [Ok (Some member); Ok (Some member)]
    [Ok tt; Ok tt] [Ok "pdf"; Ok "pdf"] [Ok tt; Ok tt] [Ok tt; Ok tt]
    "2024-05-02".

End Samples.

(** ** The runs of [handleDniSearch], case by case *)

Section SearchRuns.

Context {ClientId Blob World : Type}.
Variable api : Api ClientId Blob World.
Variable p : PageState ClientId.
Variable w : World.

(** The test with which [handleDniSearch] refuses to search (line 68). *)
Definition dni_invalid (q : PageState ClientId) : bool :=
  JsString.falsy (dni (form q))
  || negb (String.length (dni (form q)) =? 8)%nat.

(** [disabled] of the search button (line 237). *)
Definition search_disabled (q : PageState ClientId) : bool :=
  isSearching q
  || JsString.falsy (dni (form q))
  || negb (String.length (dni (form q)) =? 8)%nat.

(** The form values with the two member fields replaced. *)
Definition with_member (n : string) (i : option ClientId)
    (v : ReciboPagoFormValues ClientId) : ReciboPagoFormValues ClientId :=
  mkValues (dni v) n i (fecha_emision v) (monto v) (concepto v)
    (metodo_pago v) (numero_operacion v).

(** The page a search leaves once it has passed the test on the DNI: the
    member it found, or none, and the member fields of the form set
    accordingly. *)
Definition searched (c : option (Client ClientId)) : PageState ClientId :=
  mkPage false (isSubmitting p) (correlative p) c
    match c with
    | Some m => with_member (razon_social m) (Some (id m)) (form p)
    | None => with_member "" None (form p)
    end.

Definition invalid_dni_toast : Toast Blob :=
  mkToast "DNI Inválido" "Ingrese un DNI de 8 dígitos."
    VariantWarning None None.

Definition found_toast (c : Client ClientId) : Toast Blob :=
  mkToast "Socio Encontrado" ("Datos cargados para: " +:+ razon_social c)
    VariantDefault None None.

Definition search_error_toast (e : Error) : Toast Blob :=
  mkToast "Error de Búsqueda" (message e) VariantDestructive None None.

(** The five shapes a run of [handleDniSearch] can take. *)
Inductive SearchRun : Result unit * Sigma ClientId Blob World -> Prop :=
| SearchRefused :
    dni_invalid p = true ->
    SearchRun (Ok tt, mkSigma p w [EvToast invalid_dni_toast])
| SearchFound c w1 :
    dni_invalid p = false ->
    fetchClientByDocument api (dni (form p)) w = (Ok (Some c), w1) ->
    truthy_id api (id c) = true ->
    SearchRun (Ok tt, mkSigma (searched (Some c)) w1
      [EvLookup (dni (form p)) (Ok (Some c)); EvToast (found_toast c)])
| SearchFalsyId c w1 :
    dni_invalid p = false ->
    fetchClientByDocument api (dni (form p)) w = (Ok (Some c), w1) ->
    truthy_id api (id c) = false ->
    SearchRun (Ok tt, mkSigma (searched None) w1
      [EvLookup (dni (form p)) (Ok (Some c)); EvToast not_found_toast])
| SearchNotFound w1 :
    dni_invalid p = false ->
    fetchClientByDocument api (dni (form p)) w = (Ok None, w1) ->
    SearchRun (Ok tt, mkSigma (searched None) w1
      [EvLookup (dni (form p)) (Ok None); EvToast not_found_toast])
| SearchThrows e w1 :
    dni_invalid p = false ->
    fetchClientByDocument api (dni (form p)) w = (Throw e, w1) ->
    SearchRun (Ok tt, mkSigma (searched None) w1
      [EvLookup (dni (form p)) (Throw e); EvToast (search_error_toast e)]).

End SearchRuns.

(** ** Reading a trace, continued *)

Section Calls.

Context {ClientId Blob : Type}.

(** The collaborator an event is a call to, if it is a call. *)
Inductive Callee :=
| CallFetch | CallLookup | CallImport | CallRender | CallPut | CallAppend.

Definition callee (e : Event ClientId Blob) : option Callee :=
  match e with
  | EvFetchNext _ => Some CallFetch
  | EvLookup _ _ => Some CallLookup
  | EvImport _ => Some CallImport
  | EvRender _ _ => Some CallRender
  | EvPut _ _ _ _ => Some CallPut
  | EvAppend _ _ => Some CallAppend
  | EvConsole _ | EvToast _ => None
  end.

(** The calls of a trace, in order. *)
Fixpoint calls (t : list (Event ClientId Blob)) : list Callee :=
  match t with
  | [] => []
  | e :: t' =>
      match callee e with
      | Some c => c :: calls t'
      | None => calls t'
      end
  end.

(** The order in which [onSubmit] calls its collaborators. *)
Definition saga_order : list Callee :=
  [CallImport; CallRender; CallPut; CallAppend; CallFetch].

(** The values successful calls to the sequencer returned, latest
    first. *)
Fixpoint fetched (seen : list string) (t : list (Event ClientId Blob))
  : list string :=
  match t with
  | [] => seen
  | EvFetchNext (Ok c) :: t' => fetched (c :: seen) t'
  | _ :: t' => fetched seen t'
  end.

End Calls.

(** ** Sessions

    What can happen to the page, one action at a time: the operator edits
    the fields that have an input (the member name is read-only and the
    member identifier has no input), presses the search button or submits
    the form, or the answer to a call of [loadCorrelative()] that was not
    awaited arrives.  [handleDniSearch] and [onSubmit] run to their end
    before the next action; the answers of the sequencer arrive at any
    later time and in any order.  The trace of a session is the traces of
    its handlers one after the other. *)

Section Sessions.

Context {ClientId Blob World : Type}.
Variable api : Api ClientId Blob World.

Inductive Action :=
| ActEdit (dni fecha_emision : string) (monto : JsNumber)
          (concepto metodo_pago numero_operacion : string)
| ActSearch
| ActSubmit
| ActSettle (i : nat).

(** The inputs of the form write their field (lines 235, 255, 286, 298,
    325, 340). *)
Definition edit (dni fecha_emision : string) (monto : JsNumber)
    (concepto metodo_pago numero_operacion : string)
    (q : PageState ClientId) : PageState ClientId :=
  mkPage (isSearching q) (isSubmitting q) (correlative q) (clientData q)
    (mkValues dni (client_name (form q)) (client_id (form q))
       fecha_emision monto concepto metodo_pago numero_operacion).

(** Running a handler in the middle of a session. *)
Definition then_run {A} (m : M ClientId Blob World A)
    (s : Sigma ClientId Blob World) : Sigma ClientId Blob World :=
  let r := run m (page s) (world s) in
  mkSigma (page (snd r)) (world (snd r)) (trace s ++ trace (snd r)).

(** A session in progress: the page, the world and the trace so far, and
    the answers of the sequencer that [loadCorrelative] has not been
    resumed with yet. *)
Record Session := mkSession {
  current : Sigma ClientId Blob World;
  awaited : list (Result string)
}.

(** Take the element at position [i] out of a list. *)
Fixpoint take_out {A} (i : nat) (l : list A) : option (A * list A) :=
  match l, i with
  | [], _ => None
  | x :: l', O => Some (x, l')
  | x :: l', S i' =>
      match take_out i' l' with
      | Some (y, rest) => Some (y, x :: rest)
      | None => None
      end
  end.

Definition perform (s : Session) (a : Action) : Session :=
  match a with
  | ActEdit d f m c mp no =>
      mkSession
        (mkSigma (edit d f m c mp no (page (current s)))
           (world (current s)) (trace (current s)))
        (awaited s)
  | ActSearch =>
      mkSession (then_run (handleDniSearch api) (current s)) (awaited s)
  | ActSubmit =>
      let m := onSubmit api (form (page (current s))) in
      mkSession (then_run m (current s))
        (awaited s
         ++ answers (trace (snd (run m (page (current s))
                                       (world (current s))))))
  | ActSettle i =>
      match take_out i (awaited s) with
      | Some (answer, rest) =>
          mkSession
            (then_run (loadCorrelative_resume answer) (current s)) rest
      | None => s
      end
  end.

(** The page once mounted in world [w] (lines 25-42 and 63-65): the
    sequencer has been called, its answer has not arrived. *)
Definition mounted (w : World) : Session :=
  mkSession
    (then_run (on_mount api) (mkSigma (initial_page api w) w []))
    (answers (trace (snd (run (on_mount api) (initial_page api w) w)))).

Definition play_session (w : World) (acts : list Action) : Session :=
  fold_left perform acts (mounted w).

Definition play (w : World) (acts : list Action)
  : Sigma ClientId Blob World :=
  current (play_session w acts).

(** The page between two actions: no handler is running, and the member
    fields of the form are those of the member that is loaded. *)
Definition coherent (q : PageState ClientId) : Prop :=
  isSearching q = false /\
  isSubmitting q = false /\
  match clientData q with
  | Some c =>
      truthy_id api (id c) = true /\
      client_name (form q) = razon_social c /\
      client_id (form q) = Some (id c)
  | None => client_name (form q) = "" /\ client_id (form q) = None
  end.

(** Where the numbers of a session come from: every receipt is rendered
    under a value the sequencer returned earlier in the session, so is
    every ledger row, and so is the correlative the page holds, unless it
    holds none. *)
Definition provenance (s : Sigma ClientId Blob World) : Prop :=
  allocated_in_run [] (trace s) = true /\
  (forall row r, In (EvAppend row r) (trace s) ->
                 In (receipt_number row) (fetched [] (trace s))) /\
  (correlative (page s) = "" \/
   In (correlative (page s)) (fetched [] (trace s))).

(** Every answer still awaited is a value the trace has seen fetched. *)
Definition answers_known (s : Session) : Prop :=
  forall c, In (Ok c) (awaited s) ->
            In c (fetched [] (trace (current s))).

End Sessions.

Arguments Session : clear implicits.

(** A decimal digit. *)
Definition decimal_digit (c : ascii) : bool :=
  match JsString.digit_of 10 c with
  | Some _ => true
  | None => false
  end.

(** ** Sample sessions in the scripted world *)

Module SessionSamples.

Import Scripted.

(** A page with a member loaded and three characters in the DNI input. *)
Definition short_dni : PageState nat :=
  mkPage false false "R-00042" (Some member)
    (mkValues "123" "Ana Quispe" (Some 7) "2024-05-01" (Finite (250 # 1))
       "Elaboracion de Expediente Tecnico" "Efectivo" "").

(** The first correlative arrives, the operator types a DNI and the rest
    of a cash payment, then searches. *)
Definition type_and_search : list Action :=
  [ActSettle 0;
   ActEdit "12345678" "2024-05-01" (Finite (250 # 1))
     "Elaboracion de Expediente Tecnico" "Efectivo" "";
   ActSearch].

(** A receipt from page load to the arrival of the next correlative. *)
Definition one_receipt : list Action :=
  type_and_search ++ [ActSubmit; ActSettle 0].

(** Two receipts in a row, each submitted after the answer of the
    sequencer has arrived. *)
Definition two_receipts : list Action :=
  one_receipt
  ++ [ActEdit "12345678" "2024-05-01" (Finite (250 # 1))
        "Elaboracion de Expediente Tecnico" "Efectivo" "";
      ActSearch; ActSubmit; ActSettle 0].

(** Two receipts in a row, the second submitted before the answer of the
    sequencer to the first has arrived. *)
Definition two_receipts_in_haste : list Action :=
  type_and_search
  ++ [ActSubmit;
      ActEdit "12345678" "2024-05-01" (Finite (250 # 1))
        "Elaboracion de Expediente Tecnico" "Efectivo" "";
      ActSearch; ActSubmit; ActSettle 0; ActSettle 0].

End SessionSamples.

(** * Properties *)

Example Number_examples :
  JsString.Number "" = Finite 0 /\
  JsString.Number "  " = Finite 0 /\
  JsString.Number "00123456" = Finite (123456 # 1) /\
  JsString.Number " 12.50 " = Finite (25 # 2) /\
  JsString.Number "1e3" = Finite (1000 # 1) /\
  JsString.Number "-.5" = Finite (-1 # 2) /\
  JsString.Number "0x1F" = Finite (31 # 1) /\
  JsString.Number "-Infinity" = Infinity true /\
  JsString.Number "12a" = NaN /\
  JsString.Number "." = NaN /\
  JsString.Number "1e" = NaN /\
  JsString.Number "-0x10" = NaN.
Proof. vm_compute. repeat split. Qed.

(** ** Splitting a trace around one of its events *)

Lemma split_nil_inv {A} (l1 : list A) (e : A) (l2 : list A) :
  [] = l1 ++ e :: l2 -> False.
Proof. destruct l1; discriminate. Qed.

Lemma split_cons_inv {A} (x : A) (t l1 : list A) (e : A) (l2 : list A) :
  x :: t = l1 ++ e :: l2 ->
  (l1 = [] /\ x = e /\ t = l2) \/
  (exists l1', l1 = x :: l1' /\ t = l1' ++ e :: l2).
Proof.
  destruct l1 as [|a l1']; cbn; intros H; injection H as -> ->.
  - left; auto.
  - right; eauto.
Qed.

(** Enumerate the ways a concrete trace splits as [l1 ++ e :: l2]. *)
Ltac split_trace H :=
  repeat match type of H with
    | [] = _ ++ _ :: _ => destruct (split_nil_inv _ _ _ H)
    | _ :: _ = _ ++ _ :: _ =>
        apply split_cons_inv in H;
        destruct H as [(-> & H & <-) | (? & -> & H)];
        [ try discriminate H; try (injection H as; subst) | ]
    end.

(** Enumerate the members of a concrete trace. *)
Ltac in_trace H :=
  cbn [In] in H;
  repeat match type of H with
    | _ \/ _ => destruct H as [H | H]
    | False => destruct H
    end;
  try discriminate H.

Ltac step_run :=
  cbn [page world trace app isSearching isSubmitting correlative
       clientData form].

Section RunLemmas.

Context {ClientId Blob World : Type}.
Variable api : Api ClientId Blob World.
Variable values : ReciboPagoFormValues ClientId.
Variable p : PageState ClientId.
Variable w : World.

(** Every run of [onSubmit] has one of these shapes. *)
Lemma onSubmit_run :
  SubmitRun api values p w (run (onSubmit api values) p w).
Proof.
  unfold run, onSubmit, bind at 1, get_page. cbn [page].
  destruct (clientData p) as [client|] eqn:Hc.
  2:{ apply RunIncomplete. left; exact Hc. }
  destruct (truthy_id api (id client)) eqn:Hid; cbn [negb orb].
  2:{ apply RunIncomplete. right; left. eauto. }
  destruct (JsString.falsy (correlative p)) eqn:Hk.
  { apply RunIncomplete. right; right.
    destruct (correlative p) eqn:E; [exact E | discriminate]. }
  assert (Hg : guard_passes api p client).
  { repeat split; auto. intros E. rewrite E in Hk. discriminate. }
  unfold finally, try_catch, bind, call, setIsSubmitting, modify_page,
    toast, console_error, emit, read_world, form_reset, setClientData,
    loadCorrelative_start, call_detached, modify_page, ret.
  fold (receiptData_of values p client).
  step_run.
  destruct (importReceiptPdfGenerator api w) as [[[]|e] w1] eqn:H1;
    step_run; [ | eapply RunImportThrows; eauto ].
  destruct (generateReceiptPdf api (receiptData_of values p client) w1)
    as [[pdfBlob|e] w2] eqn:H2;
    step_run; [ | eapply RunRenderThrows; eauto ].
  destruct (saveReceiptPdfToSupabase api pdfBlob (correlative p)
              (id client) w2) as [[[]|e] w3] eqn:H3;
    step_run; [ | eapply RunPutThrows; eauto ].
  destruct (createIncomeFromBoleta api
              (build_incomeData values (correlative p) client) w3)
    as [[[]|e] w4] eqn:H4;
    step_run; [ | eapply RunAppendThrows; eauto ].
  destruct (fetchNextReceiptCorrelative api w4) as [answer w5] eqn:H5;
    step_run.
  eapply RunSuccess; eauto.
Qed.

End RunLemmas.

(** Case analysis on a run of [onSubmit]. *)
Ltac submit_cases api values p w :=
  let R := fresh "R" in
  let r := fresh "r" in
  let Hr := fresh "Hr" in
  pose proof (onSubmit_run api values p w) as R;
  remember (run (onSubmit api values) p w) as r eqn:Hr;
  clear Hr; destruct R.

(** ** The submit saga *)

Section Saga.

Context {ClientId Blob World : Type}.
Variable api : Api ClientId Blob World.

(** C10: with the member data, its identifier or the cached correlative
    missing, [onSubmit] only reports incomplete data and returns: the
    trace holds that one notification and no call, page and world are
    as before.  The submit button is disabled exactly while submitting
    or while member data or correlative is absent. *)
Theorem C10_guard_blocks_every_write
    (values : ReciboPagoFormValues ClientId) (p : PageState ClientId)
    (w : World) :
  guard_fails api p ->
  run (onSubmit api values) p w
    = (Ok tt, mkSigma p w [EvToast incomplete_toast]) /\
  forallb (fun e => negb (is_external_write e))
    (trace (snd (run (onSubmit api values) p w))) = true /\
  (submit_disabled p = true <->
   isSubmitting p = true \/ clientData p = None \/ correlative p = "").
Proof.
  intros G.
  assert (E : run (onSubmit api values) p w
              = (Ok tt, mkSigma p w [EvToast incomplete_toast])).
  { submit_cases api values p w; try reflexivity;
      match goal with H : guard_passes _ _ _ |- _ =>
        destruct H as (Hc & Hid & Hk) end;
      destruct G as [G | [(c & G & Gid) | G]]; congruence. }
  split; [exact E|]. split; [rewrite E; reflexivity|].
  unfold submit_disabled.
  destruct (isSubmitting p), (clientData p), (correlative p); cbn;
    intuition congruence.
Qed.

(** C3: in a run of [onSubmit], a ledger append that was attempted is
    preceded in the trace by an artifact put, for the same correlative,
    that returned success; and no artifact put of that run threw. *)
Theorem C3_ledger_only_after_artifact_put
    (values : ReciboPagoFormValues ClientId) (p : PageState ClientId)
    (w : World) (row : IncomeData) (r : Result unit) :
  In (EvAppend row r) (trace (snd (run (onSubmit api values) p w))) ->
  (exists l1 l2 blob member,
      trace (snd (run (onSubmit api values) p w))
        = l1 ++ EvPut blob (receipt_number row) member (Ok tt) :: l2 /\
      In (EvAppend row r) l2) /\
  (forall blob key member e,
      ~ In (EvPut blob key member (Throw e))
           (trace (snd (run (onSubmit api values) p w)))).
Proof.
  submit_cases api values p w; cbn [snd trace]; intros Hin; in_trace Hin;
    injection Hin as <- <-;
    (split;
     [ eexists [_; _], _, _, _; split; [reflexivity | cbn; auto]
     | intros blob key member e' H'; in_trace H' ]).
Qed.

(** C1 (as the page does it): the correlative handed to the renderer,
    used as the key of the artifact and written in the ledger row is the
    one cached in the page when [onSubmit] is called; the next
    correlative is fetched only after the ledger accepted the row, and
    nothing is rendered or written after that fetch. *)
Theorem C1_saga_uses_cached_correlative
    (values : ReciboPagoFormValues ClientId) (p : PageState ClientId)
    (w : World) :
  let t := trace (snd (run (onSubmit api values) p w)) in
  (forall d r, In (EvRender d r) t -> receipt_correlative d = correlative p) /\
  (forall b k m r, In (EvPut b k m r) t -> k = correlative p) /\
  (forall row r, In (EvAppend row r) t ->
                 receipt_number row = correlative p) /\
  (forall l1 r l2, t = l1 ++ EvFetchNext r :: l2 ->
     (exists row, In (EvAppend row (Ok tt)) l1) /\
     forallb (fun e => negb (is_external_write e)) l2 = true).
Proof.
  submit_cases api values p w; cbn [snd trace]; repeat split;
    try (intros; match goal with H : In _ _ |- _ => in_trace H end;
         match goal with H : _ = _ |- _ => injection H as; subst end;
         reflexivity);
    try (match goal with H : _ = _ ++ _ :: _ |- _ => split_trace H end;
         cbn; eauto 10).
Qed.

(** C8: when a step of the saga throws, the form values, the cached
    member data and the cached correlative are what they were before the
    submit, and the next correlative is not fetched; whenever a run
    changes one of them or fetches, the ledger has accepted the row. *)
Theorem C8_error_leaves_local_state
    (values : ReciboPagoFormValues ClientId) (p : PageState ClientId)
    (w : World) :
  let r := run (onSubmit api values) p w in
  (failed_step (trace (snd r)) <> None ->
     form (page (snd r)) = form p /\
     clientData (page (snd r)) = clientData p /\
     correlative (page (snd r)) = correlative p /\
     forallb (fun e => negb (is_fetch e)) (trace (snd r)) = true) /\
  (form (page (snd r)) <> form p \/
   clientData (page (snd r)) <> clientData p \/
   correlative (page (snd r)) <> correlative p \/
   existsb is_fetch (trace (snd r)) = true ->
     failed_step (trace (snd r)) = None /\
     exists row, In (EvAppend row (Ok tt)) (trace (snd r))).
Proof.
  submit_cases api values p w; cbn; split;
    try (intros _; repeat split; reflexivity);
    try (intros Hf; exfalso; apply Hf; reflexivity);
    try (intros [Hf | [Hf | [Hf | Hf]]]; congruence);
    intros _; split; eauto 10.
Qed.

(** Whatever is rendered in a run is rendered under the correlative the
    page had cached when the run started. *)
Lemma render_uses_cached
    (values : ReciboPagoFormValues ClientId) (p : PageState ClientId)
    (w : World) (d : ReceiptData ClientId) (r : Result Blob) :
  In (EvRender d r) (trace (snd (run (onSubmit api values) p w))) ->
  receipt_correlative d = correlative p.
Proof.
  submit_cases api values p w; cbn [snd trace]; intros Hin; in_trace Hin;
    injection Hin as <- <-; reflexivity.
Qed.

(** C2 (as the page does it): a run in which a step of the saga throws
    leaves the cached correlative as it was and fetches no new one, and
    the next submission from the page it leaves renders under that same
    correlative. *)
Theorem C2_failed_run_keeps_correlative
    (values values' : ReciboPagoFormValues ClientId)
    (p : PageState ClientId) (w w' : World) :
  let r1 := run (onSubmit api values) p w in
  failed_step (trace (snd r1)) <> None ->
  correlative (page (snd r1)) = correlative p /\
  (forall d r,
     In (EvRender d r)
        (trace (snd (run (onSubmit api values') (page (snd r1)) w'))) ->
     receipt_correlative d = correlative p) /\
  (forall next, ~ In (EvFetchNext (Ok next)) (trace (snd r1))).
Proof.
  intros r1 Hf.
  assert (E : correlative (page (snd r1)) = correlative p /\
              forall next, ~ In (EvFetchNext (Ok next)) (trace (snd r1))).
  { subst r1. revert Hf.
    submit_cases api values p w; cbn; intros Hf;
      try (exfalso; apply Hf; reflexivity);
      (split; [reflexivity | intros next Hin; in_trace Hin]). }
  destruct E as [E1 E2]. repeat split; auto.
  intros d r Hin. apply render_uses_cached in Hin. congruence.
Qed.

(** C4 (as the page does it): [onSubmit] never throws and returns
    nothing; when a step of the saga throws, all the caller can observe
    is the page with [isSubmitting] cleared, one notification titled
    "Error al Generar Recibo" whose description is the message of the
    error that step threw (a fixed text when that message is empty), and
    that same error on the console, whichever step threw. *)
Theorem C4_one_report_for_every_failure
    (values : ReciboPagoFormValues ClientId) (p : PageState ClientId)
    (w : World) :
  let r := run (onSubmit api values) p w in
  fst r = Ok tt /\
  (failed_step (trace (snd r)) <> None ->
     exists e,
       failed_error (trace (snd r)) = Some e /\
       observable r = (Ok tt, settled p, [failure_toast e], [e]) /\
       title (failure_toast e : Toast Blob) = "Error al Generar Recibo" /\
       description (failure_toast e : Toast Blob)
       = (if JsString.falsy (message e)
          then "Ocurrió un error inesperado."
          else message e)) /\
  (failed_step (trace (snd r)) = None ->
     toasts (trace (snd r)) = [incomplete_toast] \/
     exists blob rest,
       toasts (trace (snd r)) = success_toast (correlative p) blob :: rest).
Proof.
  submit_cases api values p w; cbn; repeat split;
    try (intros Hf; exfalso; apply Hf; reflexivity);
    try discriminate;
    try (intros _; exists e; repeat split);
    intros _; eauto.
Qed.

(** C9: the ledger row built by [onSubmit] has, as operation number,
    [Number(numero_operacion)] when the payment method is "BBVA Empresa"
    and [null] otherwise; every row a run hands to the ledger is built
    that way, so an empty operation number under "BBVA Empresa" is
    written as the number 0. *)
Theorem C9_operation_number_of_ledger_row
    (values : ReciboPagoFormValues ClientId) (p : PageState ClientId)
    (w : World) :
  (forall c client,
     numeroOperacion (build_incomeData values c client)
     = if String.eqb (metodo_pago values) "BBVA Empresa"
       then Some (JsString.Number (numero_operacion values))
       else None) /\
  (forall row r,
     In (EvAppend row r) (trace (snd (run (onSubmit api values) p w))) ->
     numeroOperacion row
     = if String.eqb (metodo_pago values) "BBVA Empresa"
       then Some (JsString.Number (numero_operacion values))
       else None) /\
  (forall row r,
     metodo_pago values = "BBVA Empresa" ->
     numero_operacion values = "" ->
     In (EvAppend row r) (trace (snd (run (onSubmit api values) p w))) ->
     numeroOperacion row = Some (Finite 0)).
Proof.
  assert (A : forall row r,
    In (EvAppend row r) (trace (snd (run (onSubmit api values) p w))) ->
    numeroOperacion row
    = if String.eqb (metodo_pago values) "BBVA Empresa"
      then Some (JsString.Number (numero_operacion values))
      else None).
  { submit_cases api values p w; cbn [snd trace]; intros row r Hin;
      in_trace Hin; injection Hin as <- <-; reflexivity. }
  split; [reflexivity|]. split; [exact A|].
  intros row r Hm Ho Hin. rewrite (A row r Hin), Hm, Ho. reflexivity.
Qed.

(** C5: a submission whose values break the rules (bank payment without
    an operation reference, amount not positive, empty concept, or an
    operation reference given where none is required) is answered by
    [ValidationFailed] with an empty trace, page and world untouched: no
    collaborator is called, so no correlative is consumed and nothing is
    written. *)
Theorem C5_invalid_request_calls_nothing
    (p : PageState ClientId) (w : World) :
  (metodo_pago (form p) = "BBVA Empresa" /\
   numero_operacion (form p) = "") \/
  positive_amount (monto (form p)) = false \/
  concepto (form p) = "" \/
  (metodo_pago (form p) <> "BBVA Empresa" /\
   numero_operacion (form p) <> "") ->
  exists reason,
    run (issue api) p w = (Ok (ValidationFailed reason), mkSigma p w []).
Proof.
  intros H.
  assert (V : exists reason, ReciboPagoFormSchema (form p) = Some reason).
  { unfold ReciboPagoFormSchema.
    destruct (positive_amount (monto (form p))); cbn [negb]; eauto.
    destruct (concepto (form p)) eqn:Ec; cbn [JsString.falsy]; eauto.
    destruct (String.eqb (metodo_pago (form p)) "BBVA Empresa") eqn:Em;
      destruct (numero_operacion (form p)) eqn:Eo;
      cbn [JsString.falsy negb Bool.eqb]; eauto; exfalso.
    - apply String.eqb_eq in Em.
      destruct H as [[_ ?] | [? | [? | [? _]]]]; congruence.
    - apply String.eqb_neq in Em.
      destruct H as [[? _] | [? | [? | [_ ?]]]]; congruence. }
  destruct V as [reason V]. exists reason.
  unfold run, issue, handleSubmit, bind, get_page, ret. cbn [page].
  rewrite V. reflexivity.
Qed.

End Saga.

(** ** The sequencer *)

Lemma uint_of_zeros (k : nat) (s : string) :
  option_map Nat.of_uint (NilEmpty.uint_of_string (Sequencer.zeros k s))
  = option_map Nat.of_uint (NilEmpty.uint_of_string s).
Proof.
  induction k as [|k IH]; [reflexivity|].
  cbn [Sequencer.zeros NilEmpty.uint_of_string].
  rewrite <- IH.
  destruct (NilEmpty.uint_of_string (Sequencer.zeros k s)); reflexivity.
Qed.

(** A correlative can be read back: rendering loses nothing. *)
Lemma number_of_render (n : nat) :
  Sequencer.number_of (Sequencer.render n) = Some n.
Proof.
  unfold Sequencer.render, Sequencer.pad_start.
  match goal with
  | |- Sequencer.number_of (_ +:+ ?digits) = _ =>
      change (option_map Nat.of_uint (NilEmpty.uint_of_string digits) = Some n)
  end.
  rewrite uint_of_zeros.
  pose proof (Unsigned.of_to n) as E.
  destruct (Nat.to_uint n) eqn:D;
    try (unfold NilZero.string_of_uint; rewrite NilEmpty.usu; cbn [option_map];
         rewrite E; reflexivity).
  cbn in E. subst n. reflexivity.
Qed.

Lemma render_inj (n m : nat) :
  Sequencer.render n = Sequencer.render m -> n = m.
Proof.
  intros E. pose proof (number_of_render n) as Hn.
  rewrite E, number_of_render in Hn. congruence.
Qed.

Lemma peeks_store (n : nat) (last : option string) (s : Sequencer.Store) :
  snd (Sequencer.peeks n last s) = s.
Proof.
  revert last. induction n as [|n IH]; intros last; [reflexivity|].
  cbn. apply IH.
Qed.

Lemma peeks_value (n : nat) (last : option string) (s : Sequencer.Store) :
  fst (Sequencer.peeks (S n) last s)
  = Some (Sequencer.render (S (Sequencer.counter s))).
Proof.
  revert last. induction n as [|n IH]; intros last; [reflexivity|].
  change (Sequencer.peeks (S (S n)) last s)
    with (Sequencer.peeks (S n)
            (Some (Sequencer.render (S (Sequencer.counter s)))) s).
  apply IH.
Qed.

(** C6: [peek] leaves the store as it is, however often it is called, and
    an [allocate] that follows returns the value the last [peek]
    reported. *)
Theorem C6_peek_does_not_consume
    (s : Sequencer.Store) (n : nat) (last : option string) :
  Sequencer.reachable s = true ->
  snd (Sequencer.peeks n last s) = s /\
  exists c,
    Sequencer.peeks (S n) last s = (Some c, s) /\
    fst (Sequencer.allocate (snd (Sequencer.peeks (S n) last s)))
      = Sequencer.Allocated c.
Proof.
  intros Hr. split; [apply peeks_store|].
  exists (Sequencer.render (S (Sequencer.counter s))).
  pose proof (peeks_value n last s) as Hv.
  pose proof (peeks_store (S n) last s) as Hs.
  destruct (Sequencer.peeks (S n) last s) as [v s'].
  cbn [fst snd] in *. subst. split; [reflexivity|].
  unfold Sequencer.allocate. rewrite Hr. reflexivity.
Qed.

Lemma consistent_start (n : nat) :
  Sequencer.consistent n (Sequencer.start n).
Proof.
  unfold Sequencer.consistent, Sequencer.start; cbn.
  repeat split; intros; simplify_map_eq.
Qed.

Lemma consistent_step (n : nat) (sys sys' : Sequencer.System) :
  Sequencer.consistent n sys -> Sequencer.step sys sys' ->
  Sequencer.consistent n sys'.
Proof.
  intros (Hsize & Hrange & Hinj) Hstep.
  destruct Hstep as [sys i c st Hi Ha | sys i st Hi Ha | sys b];
    unfold Sequencer.consistent, Sequencer.allocate in *;
    cbn [Sequencer.store Sequencer.returned Sequencer.counter] in *.
  - destruct (Sequencer.reachable (Sequencer.store sys)); [|discriminate].
    injection Ha as <- <-. cbn [Sequencer.counter].
    repeat split.
    + rewrite map_size_insert_None by exact Hi. lia.
    + intros j c' Hj. destruct (decide (i = j)) as [<-|Hne].
      * rewrite lookup_insert_eq in Hj. injection Hj as <-.
        eexists; split; [|reflexivity]. lia.
      * rewrite lookup_insert_ne in Hj by exact Hne.
        destruct (Hrange j c' Hj) as (k & Hk & ->).
        exists k; split; [lia | reflexivity].
    + intros j j' c Hj Hj'.
      destruct (decide (i = j)) as [<-|Hne];
        destruct (decide (i = j')) as [<-|Hne']; [reflexivity| | |].
      * rewrite lookup_insert_eq in Hj. injection Hj as <-.
        rewrite lookup_insert_ne in Hj' by exact Hne'.
        destruct (Hrange j' _ Hj') as (k & Hk & Ek).
        apply render_inj in Ek. lia.
      * rewrite lookup_insert_eq in Hj'. injection Hj' as <-.
        rewrite lookup_insert_ne in Hj by exact Hne.
        destruct (Hrange j _ Hj) as (k & Hk & Ek).
        apply render_inj in Ek. lia.
      * rewrite lookup_insert_ne in Hj by exact Hne.
        rewrite lookup_insert_ne in Hj' by exact Hne'.
        eapply Hinj; eassumption.
  - destruct (Sequencer.reachable (Sequencer.store sys)); [discriminate|].
    injection Ha as <-. auto.
  - auto.
Qed.

Lemma consistent_reachable (n : nat) (sys : Sequencer.System) :
  rtc Sequencer.step (Sequencer.start n) sys -> Sequencer.consistent n sys.
Proof.
  intros H.
  eapply (rtc_ind_r (fun z => Sequencer.consistent n z) (Sequencer.start n));
    [apply consistent_start | | exact H].
  intros y z _ Hyz IH. eapply consistent_step; eassumption.
Qed.

(** C7: however the atomic commits of concurrent [allocate] calls
    interleave, the values returned to two different calls differ; and
    when exactly two calls have returned since the counter stood at [n],
    they hold the renderings of [n+1] and [n+2], in one order or the
    other. *)
Theorem C7_concurrent_allocations_distinct
    (n : nat) (sys : Sequencer.System) (i j : nat) (ci cj : string) :
  rtc Sequencer.step (Sequencer.start n) sys ->
  i <> j ->
  Sequencer.returned sys !! i = Some ci ->
  Sequencer.returned sys !! j = Some cj ->
  ci <> cj /\
  (size (Sequencer.returned sys) = 2 ->
     (ci = Sequencer.render (n + 1) /\ cj = Sequencer.render (n + 2)) \/
     (ci = Sequencer.render (n + 2) /\ cj = Sequencer.render (n + 1))).
Proof.
  intros Hreach Hij Hi Hj.
  destruct (consistent_reachable n sys Hreach) as (Hsize & Hrange & Hinj).
  assert (Hne : ci <> cj).
  { intros ->. apply Hij. eapply Hinj; eassumption. }
  split; [exact Hne|]. intros H2.
  destruct (Hrange i ci Hi) as (ki & Hki & ->).
  destruct (Hrange j cj Hj) as (kj & Hkj & ->).
  assert (ki <> kj) by congruence.
  assert (ki = n + 1 /\ kj = n + 2 \/ ki = n + 2 /\ kj = n + 1) as
    [[-> ->] | [-> ->]] by lia; auto.
Qed.

(** ** The properties at work in the scripted world *)

(** In the scripted world where everything succeeds, the renderer is
    handed the cached "R-00042" although the sequencer has not been called
    in the run; its only call comes last and fetches "R-00043". *)
Lemma C1_counterexample :
  let t := trace (snd (Samples.cash_run Scripted.all_fine)) in
  allocated_in_run [] t = false /\
  rendered t = ["R-00042"] /\
  List.filter is_fetch t = [EvFetchNext (Ok "R-00043")] /\
  List.last t (EvImport (Ok tt)) = EvFetchNext (Ok "R-00043").
Proof. vm_compute. repeat split. Qed.

Lemma C1_witness :
  let t := trace (snd (Samples.cash_run Scripted.all_fine)) in
  In (EvRender (receiptData_of Scripted.cash (Scripted.ready "R-00042"
        Scripted.cash) Scripted.member) (Ok "pdf")) t /\
  forall d r, In (EvRender d r) t -> receipt_correlative d = "R-00042".
Proof.
  split.
  - vm_compute. auto.
  - exact (proj1 (C1_saga_uses_cached_correlative Scripted.api Scripted.cash
                    (Scripted.ready "R-00042" Scripted.cash) Scripted.all_fine)).
Defined.

(** The renderer throws under "R-00042"; the submission that follows,
    from the page and the world the failed run left, renders, stores and
    records under "R-00042" again. *)
Lemma C2_counterexample :
  let r1 := Samples.cash_run Scripted.render_throws in
  let r2 := run (onSubmit Scripted.api Scripted.cash)
                (page (snd r1)) (world (snd r1)) in
  failed_step (trace (snd r1)) = Some StepRender /\
  rendered (trace (snd r1)) = ["R-00042"] /\
  rendered (trace (snd r2)) = ["R-00042"] /\
  recorded (trace (snd r2)) = ["R-00042"].
Proof. vm_compute. repeat split. Qed.

Lemma C2_witness :
  let r1 := Samples.cash_run Scripted.render_throws in
  failed_step (trace (snd r1)) <> None /\
  correlative (page (snd r1)) = "R-00042" /\
  forall d r,
    In (EvRender d r)
       (trace (snd (run (onSubmit Scripted.api Scripted.cash)
                        (page (snd r1)) (world (snd r1))))) ->
    receipt_correlative d = "R-00042".
Proof.
  assert (H : failed_step
                (trace (snd (Samples.cash_run Scripted.render_throws))) <> None)
    by (vm_compute; discriminate).
  split; [exact H|].
  pose proof (C2_failed_run_keeps_correlative Scripted.api Scripted.cash
                Scripted.cash (Scripted.ready "R-00042" Scripted.cash)
                Scripted.render_throws
                (world (snd (Samples.cash_run Scripted.render_throws))) H)
    as (A & B & _).
  split; [exact A | exact B].
Defined.

Lemma C3_witness :
  let t := trace (snd (Samples.cash_run Scripted.all_fine)) in
  let row := build_incomeData Scripted.cash "R-00042" Scripted.member in
  In (EvAppend row (Ok tt)) t /\
  (exists l1 l2 blob member,
      t = l1 ++ EvPut blob (receipt_number row) member (Ok tt) :: l2 /\
      In (EvAppend row (Ok tt)) l2).
Proof.
  assert (H : In (EvAppend (build_incomeData Scripted.cash "R-00042"
                              Scripted.member) (Ok tt))
                 (trace (snd (Samples.cash_run Scripted.all_fine))))
    by (vm_compute; auto 10).
  split; [exact H|].
  exact (proj1 (C3_ledger_only_after_artifact_put Scripted.api Scripted.cash
                  (Scripted.ready "R-00042" Scripted.cash) Scripted.all_fine
                  _ _ H)).
Defined.

(** A run whose renderer throws "boom" and a run whose ledger throws
    "boom" after the artifact was stored leave the caller with the same
    return value, page, notification and console line: nothing read from
    them can tell [RenderFailed] from [LedgerWriteFailed]. *)
Lemma C4_counterexample :
  failed_step (trace (snd (Samples.cash_run Scripted.render_throws)))
    = Some StepRender /\
  failed_step (trace (snd (Samples.cash_run Scripted.append_throws)))
    = Some StepAppend /\
  ~ exists (classify :
              Result unit * PageState nat * list (Toast string) * list Error
              -> SagaOutcome (ReceiptData nat) string)
           (handle : string),
      classify (observable (Samples.cash_run Scripted.render_throws))
        = RenderFailed "R-00042" /\
      classify (observable (Samples.cash_run Scripted.append_throws))
        = LedgerWriteFailed "R-00042" handle.
Proof.
  split; [vm_compute; reflexivity|]. split; [vm_compute; reflexivity|].
  intros (classify & handle & HA & HB).
  assert (E : observable (Samples.cash_run Scripted.render_throws)
              = observable (Samples.cash_run Scripted.append_throws))
    by (vm_compute; reflexivity).
  rewrite E in HA. rewrite HA in HB. discriminate HB.
Qed.

Lemma C4_witness :
  let r := Samples.cash_run Scripted.append_throws in
  failed_step (trace (snd r)) <> None /\
  exists e,
    failed_error (trace (snd r)) = Some e /\
    observable r
    = (Ok tt, settled (Scripted.ready "R-00042" Scripted.cash),
       [failure_toast e], [e]) /\
    title (failure_toast e : Toast string) = "Error al Generar Recibo" /\
    description (failure_toast e : Toast string)
    = (if JsString.falsy (message e)
       then "Ocurrió un error inesperado."
       else message e).
Proof.
  assert (H : failed_step
                (trace (snd (Samples.cash_run Scripted.append_throws))) <> None)
    by (vm_compute; discriminate).
  split; [exact H|].
  exact (proj1 (proj2 (C4_one_report_for_every_failure Scripted.api
                         Scripted.cash (Scripted.ready "R-00042" Scripted.cash)
                         Scripted.append_throws)) H).
Defined.

Lemma C5_witness :
  (metodo_pago (Scripted.bank "") = "BBVA Empresa" /\
   numero_operacion (Scripted.bank "") = "") /\
  exists reason,
    run (issue Scripted.api) (Scripted.ready "R-00042" (Scripted.bank ""))
        Scripted.all_fine
    = (Ok (ValidationFailed reason),
       mkSigma (Scripted.ready "R-00042" (Scripted.bank ""))
               Scripted.all_fine []).
Proof.
  split; [split; reflexivity|].
  apply (C5_invalid_request_calls_nothing Scripted.api
           (Scripted.ready "R-00042" (Scripted.bank "")) Scripted.all_fine).
  left. split; reflexivity.
Defined.

Lemma C6_witness :
  Sequencer.reachable (Sequencer.mkStore 41 true) = true /\
  exists c,
    Sequencer.peeks 3 None (Sequencer.mkStore 41 true)
      = (Some c, Sequencer.mkStore 41 true) /\
    fst (Sequencer.allocate
           (snd (Sequencer.peeks 3 None (Sequencer.mkStore 41 true))))
      = Sequencer.Allocated c.
Proof.
  split; [reflexivity|].
  exact (proj2 (C6_peek_does_not_consume (Sequencer.mkStore 41 true) 2 None
                  eq_refl)).
Defined.

Lemma C8_witness :
  let r := Samples.cash_run Scripted.append_throws in
  failed_step (trace (snd r)) <> None /\
  form (page (snd r)) = Scripted.cash /\
  clientData (page (snd r)) = Some Scripted.member /\
  correlative (page (snd r)) = "R-00042" /\
  forallb (fun e => negb (is_fetch e)) (trace (snd r)) = true.
Proof.
  assert (H : failed_step
                (trace (snd (Samples.cash_run Scripted.append_throws))) <> None)
    by (vm_compute; discriminate).
  split; [exact H|].
  exact (proj1 (C8_error_leaves_local_state Scripted.api Scripted.cash
                  (Scripted.ready "R-00042" Scripted.cash)
                  Scripted.append_throws) H).
Defined.

Lemma C9_witness :
  let row := build_incomeData (Scripted.bank "") "R-00042" Scripted.member in
  (metodo_pago (Scripted.bank "") = "BBVA Empresa" /\
   numero_operacion (Scripted.bank "") = "" /\
   In (EvAppend row (Ok tt)) (trace (snd Samples.bank_run))) /\
  numeroOperacion row = Some (Finite 0) /\
  recorded (trace (snd Samples.bank_run)) = ["R-00042"].
Proof.
  assert (H : In (EvAppend (build_incomeData (Scripted.bank "") "R-00042"
                              Scripted.member) (Ok tt))
                 (trace (snd Samples.bank_run)))
    by (vm_compute; auto 10).
  split; [split; [reflexivity | split; [reflexivity | exact H]] |].
  split; [|vm_compute; reflexivity].
  exact (proj2 (proj2 (C9_operation_number_of_ledger_row Scripted.api
                         (Scripted.bank "")
                         (Scripted.ready "R-00042" (Scripted.bank ""))
                         Scripted.all_fine))
           _ _ eq_refl eq_refl H).
Defined.

Lemma C10_witness :
  guard_fails Scripted.api Samples.no_member /\
  run (onSubmit Scripted.api Scripted.cash) Samples.no_member Scripted.all_fine
  = (Ok tt, mkSigma Samples.no_member Scripted.all_fine
              [EvToast incomplete_toast]).
Proof.
  assert (G : guard_fails Scripted.api Samples.no_member) by (left; reflexivity).
  split; [exact G|].
  exact (proj1 (C10_guard_blocks_every_write Scripted.api Scripted.cash
                  Samples.no_member Scripted.all_fine G)).
Defined.

(** Two calls commit one after the other from a counter at 10. *)
Lemma C7_witness :
  let sys := Sequencer.mkSystem (Sequencer.mkStore 12 true)
               (<[1 := "R-00012"]> (<[0 := "R-00011"]> ∅)) in
  (rtc Sequencer.step (Sequencer.start 10) sys /\
   0 <> 1 /\
   Sequencer.returned sys !! 0 = Some "R-00011" /\
   Sequencer.returned sys !! 1 = Some "R-00012") /\
  "R-00011" <> "R-00012".
Proof.
  assert (R : rtc Sequencer.step (Sequencer.start 10)
                (Sequencer.mkSystem (Sequencer.mkStore 12 true)
                   (<[1 := "R-00012"]> (<[0 := "R-00011"]> ∅)))).
  { apply (rtc_l _ _ (Sequencer.mkSystem (Sequencer.mkStore 11 true)
                        (<[0 := "R-00011"]> ∅))).
    - exact (Sequencer.step_commit (Sequencer.start 10) 0 "R-00011"
               (Sequencer.mkStore 11 true) eq_refl eq_refl).
    - apply rtc_once.
      exact (Sequencer.step_commit
               (Sequencer.mkSystem (Sequencer.mkStore 11 true)
                  (<[0 := "R-00011"]> ∅))
               1 "R-00012" (Sequencer.mkStore 12 true) eq_refl eq_refl). }
  assert (N : 0 <> 1) by discriminate.
  assert (L0 : (<[1 := "R-00012"]> (<[0 := "R-00011"]> ∅) : gmap nat string)
               !! 0 = Some "R-00011") by reflexivity.
  assert (L1 : (<[1 := "R-00012"]> (<[0 := "R-00011"]> ∅) : gmap nat string)
               !! 1 = Some "R-00012") by reflexivity.
  split; [repeat split; assumption|].
  exact (proj1 (C7_concurrent_allocations_distinct 10 _ 0 1 _ _ R N L0 L1)).
Defined.


(** A session from page load to submit: the receipt goes out under the
    correlative fetched when the page was mounted; when [onSubmit] returns
    the page still holds that correlative, and the next one is there once
    the answer of the sequencer has arrived. *)
Example session_uses_prefetched_correlative :
  let before := play Scripted.api Samples.two_fetches
                  (SessionSamples.type_and_search ++ [ActSubmit]) in
  let s := play Scripted.api Samples.two_fetches SessionSamples.one_receipt in
  rendered (trace s) = ["R-00042"] /\
  recorded (trace s) = ["R-00042"] /\
  correlative (page before) = "R-00042" /\
  correlative (page s) = "R-00043" /\
  clientData (page s) = None.
Proof. vm_compute. repeat split. Qed.

(** When the fetch that follows a successful submit throws, the page
    keeps the correlative it has just used, and the next receipt is
    recorded under it as well. *)
Example refetch_failure_keeps_used_correlative :
  let s := play Scripted.api Samples.refetch_throws
             SessionSamples.two_receipts in
  recorded (trace s) = ["R-00042"; "R-00042"] /\
  correlative (page s) = "R-00042" /\
  toasts (trace s)
    = [found_toast Scripted.member; success_toast "R-00042" "pdf";
       correlative_toast;
       found_toast Scripted.member; success_toast "R-00042" "pdf";
       correlative_toast].
Proof. vm_compute. repeat split. Qed.

(** When the operator submits a second receipt before the answer of the
    sequencer to the first has arrived, both receipts are recorded under
    the same correlative, although every call succeeds. *)
Example hasty_resubmission_reuses_correlative :
  let s := play Scripted.api Samples.twice_fine
             SessionSamples.two_receipts_in_haste in
  recorded (trace s) = ["R-00042"; "R-00042"] /\
  answers (trace s) = [Ok "R-00042"; Ok "R-00043"; Ok "R-00044"].
Proof. vm_compute. repeat split. Qed.

(** When the artifact store throws, the ledger is not called at all. *)
Example put_failure_skips_ledger :
  let r := Samples.cash_run Scripted.put_throws in
  failed_step (trace (snd r)) = Some StepPut /\
  existsb is_append (trace (snd r)) = false /\
  correlative (page (snd r)) = "R-00042".
Proof. vm_compute. repeat split. Qed.


(** * Further properties of the page *)

Section Handlers.

Context {ClientId Blob World : Type}.
Variable api : Api ClientId Blob World.

(** Every run of [handleDniSearch] has one of the five shapes. *)
Lemma handleDniSearch_run (p : PageState ClientId) (w : World) :
  SearchRun api p w (run (handleDniSearch api) p w).
Proof.
  unfold run, handleDniSearch, bind at 1, get_page. cbn [page].
  destruct (dni_invalid p) eqn:Hd; unfold dni_invalid in Hd; rewrite Hd.
  { apply SearchRefused. exact Hd. }
  unfold finally, try_catch, bind, call, setIsSearching, setClientData,
    form_set_client, modify_page, toast, emit, ret.
  step_run.
  destruct (fetchClientByDocument api (dni (form p)) w)
    as [[[c|]|e] w1] eqn:Hl; step_run.
  - destruct (truthy_id api (id c)) eqn:Hid; step_run.
    + eapply SearchFound; eauto.
    + eapply SearchFalsyId; eauto.
  - eapply SearchNotFound; eauto.
  - eapply SearchThrows; eauto.
Qed.

End Handlers.

(** Case analysis on a run of [handleDniSearch]. *)
Ltac search_cases api p w :=
  let R := fresh "R" in
  let r := fresh "r" in
  let Hr := fresh "Hr" in
  pose proof (handleDniSearch_run api p w) as R;
  remember (run (handleDniSearch api) p w) as r eqn:Hr;
  clear Hr; destruct R.

Section PageProperties.

Context {ClientId Blob World : Type}.
Variable api : Api ClientId Blob World.

(** X1: [loadCorrelative] never throws and calls the sequencer once and
    nothing else.  When the sequencer answers with a value, that value is
    what [loadCorrelative] returns and what the page then caches, and
    nothing is shown; when the call throws, [loadCorrelative] returns the
    empty string, the page keeps all it had, the error goes to the
    console and "Error de Correlativo" is shown.  The other cells of the
    page are never touched.  Calling it without awaiting it and resuming
    it at once is the same thing. *)
Theorem loadCorrelative_returns_cached_or_empty
    (p : PageState ClientId) (w : World) :
  let r := run (loadCorrelative api) p w in
  let answer := fst (fetchNextReceiptCorrelative api w) in
  world (snd r) = snd (fetchNextReceiptCorrelative api w) /\
  match answer with
  | Ok c =>
      fst r = Ok c /\
      page (snd r)
      = mkPage (isSearching p) (isSubmitting p) c (clientData p) (form p) /\
      trace (snd r) = [EvFetchNext (Ok c)]
  | Throw e =>
      fst r = Ok "" /\
      page (snd r) = p /\
      trace (snd r)
      = [EvFetchNext (Throw e); EvConsole e; EvToast correlative_toast]
  end /\
  r = run (bind (loadCorrelative_start api) loadCorrelative_resume) p w.
Proof.
  unfold run, loadCorrelative, loadCorrelative_start, loadCorrelative_resume,
    call_detached, settle, try_catch, bind, call, setCorrelative,
    modify_page, console_error, toast, emit, ret.
  step_run.
  destruct (fetchNextReceiptCorrelative api w) as [[c|e] w1]; step_run;
    cbn [fst snd page world trace app]; step_run; repeat split.
Qed.

(** X2: with a DNI that does not have exactly 8 characters (the empty one
    included), [handleDniSearch] only shows a warning: the directory is
    not called, page and world are as before; in particular a member
    loaded earlier stays loaded. *)
Theorem search_refuses_dni_of_wrong_length
    (p : PageState ClientId) (w : World) :
  String.length (dni (form p)) <> 8 ->
  run (handleDniSearch api) p w
  = (Ok tt, mkSigma p w [EvToast invalid_dni_toast]).
Proof.
  intros Hlen.
  assert (Hd : dni_invalid p = true).
  { unfold dni_invalid. apply orb_true_iff. right.
    apply negb_true_iff, Nat.eqb_neq. exact Hlen. }
  search_cases api p w; try reflexivity; congruence.
Qed.

(** X3: [handleDniSearch] never throws; it calls no collaborator but the
    member directory, at most once and with the DNI of the form, and it
    shows exactly one notification. *)
Theorem search_calls_only_the_directory
    (p : PageState ClientId) (w : World) :
  let r := run (handleDniSearch api) p w in
  fst r = Ok tt /\
  (calls (trace (snd r)) = [] \/ calls (trace (snd r)) = [CallLookup]) /\
  (forall d res, In (EvLookup d res) (trace (snd r)) -> d = dni (form p)) /\
  length (toasts (trace (snd r))) = 1.
Proof.
  search_cases api p w; cbn; (split; [reflexivity|]);
    (split; [auto|]); (split; [|reflexivity]);
    intros d res Hin; in_trace Hin; injection Hin as <- _; reflexivity.
Qed.

(** X4: a search with an 8-character DNI always ends with [isSearching]
    cleared, and the member the page then holds is decided by the answer
    of the directory alone: a member returned with a truthy identifier is
    loaded, with its name and identifier in the form, and "Socio
    Encontrado" is shown; when the directory returns nothing, returns a
    member without identifier or throws, no member is loaded, even if one
    was before, the member fields of the form are emptied, and "Socio No
    Encontrado", or the message of the error, is shown. *)
Theorem search_replaces_member
    (p : PageState ClientId) (w : World) :
  String.length (dni (form p)) = 8 ->
  let r := run (handleDniSearch api) p w in
  let answer := fst (fetchClientByDocument api (dni (form p)) w) in
  isSearching (page (snd r)) = false /\
  world (snd r) = snd (fetchClientByDocument api (dni (form p)) w) /\
  match answer with
  | Ok (Some c) =>
      if truthy_id api (id c) then
        clientData (page (snd r)) = Some c /\
        client_name (form (page (snd r))) = razon_social c /\
        client_id (form (page (snd r))) = Some (id c) /\
        toasts (trace (snd r)) = [found_toast c]
      else
        clientData (page (snd r)) = None /\
        client_name (form (page (snd r))) = "" /\
        client_id (form (page (snd r))) = None /\
        toasts (trace (snd r)) = [not_found_toast]
  | Ok None =>
      clientData (page (snd r)) = None /\
      client_name (form (page (snd r))) = "" /\
      client_id (form (page (snd r))) = None /\
      toasts (trace (snd r)) = [not_found_toast]
  | Throw e =>
      clientData (page (snd r)) = None /\
      client_name (form (page (snd r))) = "" /\
      client_id (form (page (snd r))) = None /\
      toasts (trace (snd r)) = [search_error_toast e]
  end.
Proof.
  intros Hlen.
  assert (Hd : dni_invalid p = false).
  { unfold dni_invalid. rewrite Hlen.
    destruct (dni (form p)); [discriminate Hlen | reflexivity]. }
  search_cases api p w; try congruence;
    match goal with
    | E : fetchClientByDocument _ _ _ = _ |- _ => rewrite E
    end;
    cbn;
    repeat match goal with
      | E : truthy_id _ _ = _ |- _ => rewrite E; clear E
      end;
    repeat split.
Qed.

(** X5: [handleDniSearch] touches nothing but [isSearching], the member
    and the two member fields of the form: the cached correlative,
    [isSubmitting] and every field the operator typed are as before. *)
Theorem search_keeps_correlative_and_inputs
    (p : PageState ClientId) (w : World) :
  let q := page (snd (run (handleDniSearch api) p w)) in
  correlative q = correlative p /\
  isSubmitting q = isSubmitting p /\
  dni (form q) = dni (form p) /\
  fecha_emision (form q) = fecha_emision (form p) /\
  monto (form q) = monto (form p) /\
  concepto (form q) = concepto (form p) /\
  metodo_pago (form q) = metodo_pago (form p) /\
  numero_operacion (form q) = numero_operacion (form p).
Proof.
  search_cases api p w; cbn; repeat split.
Qed.

(** X6: whenever the search button is enabled, pressing it queries the
    directory, once, with the 8-character DNI of the form; the handler's
    own test on the DNI never fires behind an enabled button. *)
Theorem enabled_search_button_queries_directory
    (p : PageState ClientId) (w : World) :
  search_disabled p = false ->
  String.length (dni (form p)) = 8 /\
  exists res note,
    trace (snd (run (handleDniSearch api) p w))
    = [EvLookup (dni (form p)) res; EvToast note].
Proof.
  unfold search_disabled. intros Hb.
  apply orb_false_iff in Hb as [Hb Hlen].
  apply orb_false_iff in Hb as [_ Hne].
  assert (Hd : dni_invalid p = false).
  { unfold dni_invalid. rewrite Hne, Hlen. reflexivity. }
  split; [apply negb_false_iff, Nat.eqb_eq in Hlen; exact Hlen|].
  search_cases api p w; try congruence; cbn [snd trace]; eauto.
Qed.

End PageProperties.

(** Enumerate the ways a concrete trace splits around an event that is
    not known yet. *)
Ltac split_event H :=
  repeat match type of H with
    | [] = _ ++ _ :: _ => destruct (split_nil_inv _ _ _ H)
    | _ :: _ = _ ++ _ :: _ =>
        apply split_cons_inv in H;
        destruct H as [(-> & <- & <-) | (? & -> & H)]
    end.

Lemma guard_exclusive {ClientId Blob World : Type}
    (api : Api ClientId Blob World) (p : PageState ClientId)
    (client : Client ClientId) :
  guard_passes api p client -> guard_fails api p -> False.
Proof.
  intros (Hc & Hid & Hne) [G | [(c & G & Gid) | G]]; congruence.
Qed.

Section SubmitProperties.

Context {ClientId Blob World : Type}.
Variable api : Api ClientId Blob World.
Variable values : ReciboPagoFormValues ClientId.
Variable p : PageState ClientId.
Variable w : World.

(** X7: the collaborators a run of [onSubmit] calls are, in this order,
    the PDF generator import, the renderer, the artifact store, the ledger
    and the sequencer.  The run calls none of them exactly when its guard
    stops it; past the guard it calls them all if no step throws, and
    otherwise stops calling right after the first step that throws.  No
    step is retried, skipped or reordered, and the member directory is
    never called. *)
Theorem submit_calls_in_fixed_order :
  let t := trace (snd (run (onSubmit api values) p w)) in
  calls t `prefix_of` saga_order /\
  (calls t = [] <-> guard_fails api p) /\
  (calls t <> [] -> failed_step t = None -> calls t = saga_order) /\
  (forall l1 e l2,
     t = l1 ++ e :: l2 ->
     thrown_step e <> None ->
     calls l2 = [] /\ failed_step l1 = None) /\
  (failed_step t <> None -> calls t <> saga_order).
Proof.
  submit_cases api values p w;
    cbn [snd trace calls callee failed_step thrown_step];
    repeat match goal with
      | |- _ /\ _ => split
      | |- _ <-> _ => split
      end;
    lazymatch goal with
    | |- _ `prefix_of` _ => unfold saga_order; eexists; cbn; reflexivity
    | |- _ = [] -> guard_fails _ _ =>
        intros Hcalls; first [discriminate Hcalls | assumption]
    | |- guard_fails _ _ -> _ =>
        intros G; first [reflexivity | exfalso; eapply guard_exclusive; eauto]
    | |- _ <> [] -> _ =>
        intros Hcalls Hstep;
        first [reflexivity | discriminate Hstep
              | exfalso; apply Hcalls; reflexivity]
    | |- forall l1 e l2, _ =>
        intros l1 e0 l2 Hsplit Hthrown; split_event Hsplit;
        first [ split; reflexivity | exfalso; apply Hthrown; reflexivity ]
    | |- _ <> None -> _ =>
        intros Hstep Hcalls;
        first [discriminate Hcalls | apply Hstep; reflexivity]
    end.
Qed.

(** X8: the receipt rendered and the ledger row written in one run carry
    the same number, member name, amount, payment method, date and DNI
    field; the receipt carries the values of the form as submitted. *)
Theorem receipt_and_ledger_row_agree
    (d : ReceiptData ClientId) (r : Result Blob)
    (row : IncomeData) (r' : Result unit) :
  In (EvRender d r) (trace (snd (run (onSubmit api values) p w))) ->
  In (EvAppend row r') (trace (snd (run (onSubmit api values) p w))) ->
  receipt_values d = values /\
  receipt_number row = receipt_correlative d /\
  full_name row = client_full_name d /\
  amount row = monto (receipt_values d) /\
  account row = metodo_pago (receipt_values d) /\
  date row = fecha_emision (receipt_values d) /\
  income_dni row = dni (receipt_values d) /\
  transaction_type row = "Recibo de Pago".
Proof.
  submit_cases api values p w; cbn [snd trace]; intros Hr Ha;
    in_trace Ha; in_trace Hr;
    injection Ha as <- <-; injection Hr as <- <-; repeat split.
Qed.

(** X9: what is put in the artifact store is the blob the renderer
    returned in the same run, under the correlative of the receipt and
    linked to the member loaded in the page, whose name and document
    number are those printed on the receipt. *)
Theorem stored_blob_is_rendered_blob
    (b : Blob) (k : string) (m : ClientId) (r : Result unit) :
  In (EvPut b k m r) (trace (snd (run (onSubmit api values) p w))) ->
  exists d client,
    In (EvRender d (Ok b)) (trace (snd (run (onSubmit api values) p w))) /\
    k = receipt_correlative d /\
    clientData p = Some client /\
    m = id client /\
    client_full_name d = razon_social client /\
    client_dni d = numero_documento client.
Proof.
  submit_cases api values p w; cbn [snd trace]; intros Hp;
    in_trace Hp; injection Hp as <- <- <- <-;
    match goal with G : guard_passes _ _ _ |- _ => destruct G as (Hc & _) end;
    eexists _, _; cbn; eauto 10.
Qed.

(** X10: once the ledger has accepted the row, the page is ready for the
    next receipt: no member is loaded, the form holds the default values
    dated by the clock, [isSubmitting] is cleared, and the first
    notification offers the rendered blob for download under the name of
    the correlative followed by [.pdf]. *)
Theorem accepted_row_resets_page (row : IncomeData) :
  let r := run (onSubmit api values) p w in
  In (EvAppend row (Ok tt)) (trace (snd r)) ->
  clientData (page (snd r)) = None /\
  isSubmitting (page (snd r)) = false /\
  (exists w', form (page (snd r)) = defaultValues (today api w')) /\
  exists blob d note rest,
    In (EvRender d (Ok blob)) (trace (snd r)) /\
    toasts (trace (snd r)) = note :: rest /\
    action note = Some (mkDownload blob (correlative p +:+ ".pdf")).
Proof.
  submit_cases api values p w; cbn [snd trace]; intros Ha; in_trace Ha;
    cbn; repeat split; eauto 12.
Qed.

(** X11: every run of [onSubmit] tells the operator something: it shows at
    least one notification, and each notification has a title and a
    description that are not empty, also when the error that was thrown
    has an empty message. *)
Theorem submit_always_notifies :
  toasts (trace (snd (run (onSubmit api values) p w))) <> [] /\
  forall note,
    In note (toasts (trace (snd (run (onSubmit api values) p w)))) ->
    title note <> "" /\ description note <> "".
Proof.
  submit_cases api values p w; cbn [snd trace toasts];
    (split; [discriminate|]);
    intros note Hn; in_trace Hn; subst note; cbn;
    (split; [discriminate|]);
    try discriminate;
    unfold JsString.or_else; destruct (message e); cbn; discriminate.
Qed.

(** X12: [onSubmit] never touches [isSearching]; once past its guard it
    ends with [isSubmitting] cleared whatever happened, and when the guard
    stops it the page is exactly as before. *)
Theorem submit_clears_isSubmitting :
  let r := run (onSubmit api values) p w in
  isSearching (page (snd r)) = isSearching p /\
  (calls (trace (snd r)) <> [] -> isSubmitting (page (snd r)) = false) /\
  (calls (trace (snd r)) = [] -> page (snd r) = p /\ world (snd r) = w).
Proof.
  submit_cases api values p w; cbn; repeat split; congruence.
Qed.

End SubmitProperties.

(** ** Sessions *)

Section TraceLemmas.

Context {ClientId Blob : Type}.
Implicit Types (t : list (Event ClientId Blob)) (seen : list string).

Lemma fetched_app seen t1 t2 :
  fetched seen (t1 ++ t2) = fetched (fetched seen t1) t2.
Proof.
  revert seen. induction t1 as [|e t1 IH]; intros seen; [reflexivity|].
  destruct e as [[c|x]| | | | | | |]; cbn; apply IH.
Qed.

Lemma fetched_keeps seen t (c : string) :
  In c seen -> In c (fetched seen t).
Proof.
  revert seen. induction t as [|e t IH]; intros seen Hin; [exact Hin|].
  destruct e as [[c'|x]| | | | | | |]; cbn; apply IH; cbn; auto.
Qed.

Lemma allocated_app seen t1 t2 :
  allocated_in_run seen (t1 ++ t2)
  = allocated_in_run seen t1 && allocated_in_run (fetched seen t1) t2.
Proof.
  revert seen. induction t1 as [|e t1 IH]; intros seen; [reflexivity|].
  destruct e as [[c|x]| | | | | | |]; cbn; rewrite ?IH;
    try reflexivity.
  rewrite andb_assoc. reflexivity.
Qed.

Lemma answers_fetched seen t (c : string) :
  In (Ok c) (answers t) -> In c (fetched seen t).
Proof.
  revert seen. induction t as [|e t IH]; intros seen; [intros []|].
  destruct e as [[c'|x]| | | | | | |]; cbn; try apply IH.
  - intros [E | Hin]; [|apply IH, Hin].
    injection E as <-. apply fetched_keeps. left; reflexivity.
  - intros [E | Hin]; [discriminate | apply IH, Hin].
Qed.

Lemma seen_correlative seen (c : string) :
  In c seen -> existsb (String.eqb c) seen = true.
Proof.
  intros Hin. apply existsb_exists. exists c. split; [exact Hin|].
  apply String.eqb_refl.
Qed.

End TraceLemmas.

Section SessionLemmas.

Context {ClientId Blob World : Type}.
Variable api : Api ClientId Blob World.

Lemma take_out_In {A} (i : nat) (l : list A) (y : A) (rest : list A) :
  take_out i l = Some (y, rest) ->
  In y l /\ forall z, In z rest -> In z l.
Proof.
  revert i y rest. induction l as [|x l IH]; intros i y rest;
    [destruct i; cbn; discriminate|].
  destruct i as [|i]; simpl.
  - intros [= <- <-]. cbn. auto.
  - destruct (take_out i l) as [[y' rest']|] eqn:E; [|discriminate].
    intros [= <- <-]. destruct (IH _ _ _ E) as [Hy Hrest].
    split; [right; exact Hy|].
    intros z [<- | Hz]; [left; reflexivity | right; auto].
Qed.

(** What resuming [loadCorrelative] does to a page. *)
Lemma resume_run (answer : Result string) (q : PageState ClientId)
    (w : World) :
  run (loadCorrelative_resume (Blob:=Blob) answer) q w
  = match answer with
    | Ok next =>
        (Ok next,
         mkSigma (mkPage (isSearching q) (isSubmitting q) next
                    (clientData q) (form q)) w [])
    | Throw e =>
        (Ok "", mkSigma q w [EvConsole e; EvToast correlative_toast])
    end.
Proof. destruct answer; reflexivity. Qed.

Lemma mount_run (q : PageState ClientId) (w : World) :
  run (on_mount api) q w
  = (Ok tt,
     mkSigma q (snd (fetchNextReceiptCorrelative api w))
       [EvFetchNext (fst (fetchNextReceiptCorrelative api w))]).
Proof.
  unfold run, on_mount, loadCorrelative_start, call_detached, bind, ret.
  cbn [page world trace]. destruct (fetchNextReceiptCorrelative api w).
  reflexivity.
Qed.

Lemma coherent_mounted (w : World) :
  coherent api (page (current (mounted api w))).
Proof.
  unfold mounted, then_run. cbn [current page world]. rewrite mount_run.
  cbn. unfold coherent. cbn. auto.
Qed.

Lemma coherent_perform (s : Session ClientId Blob World) (a : Action) :
  coherent api (page (current s)) ->
  coherent api (page (current (perform api s a))).
Proof.
  intros (Hs & Hb & Hm). destruct a as [d f m c mp no| | |i];
    unfold perform; cbn [current].
  - unfold coherent, edit; cbn. auto.
  - unfold then_run; cbn [page].
    search_cases api (page (current s)) (world (current s));
      unfold coherent; cbn; rewrite ?Hb; auto.
  - unfold then_run; cbn [page].
    submit_cases api (form (page (current s))) (page (current s))
      (world (current s));
      unfold coherent; cbn; rewrite ?Hs; auto.
  - destruct (take_out i (awaited s)) as [[answer rest]|];
      [|unfold coherent; auto].
    cbn [current]. unfold then_run. rewrite resume_run.
    destruct answer; unfold coherent; cbn; auto.
Qed.

Lemma coherent_fold (acts : list Action) (s : Session ClientId Blob World) :
  coherent api (page (current s)) ->
  coherent api (page (current (fold_left (perform api) acts s))).
Proof.
  revert s. induction acts as [|a acts IH]; intros s Hs; [exact Hs|].
  cbn. apply IH, coherent_perform, Hs.
Qed.

(** The page is coherent after every session. *)
Lemma play_coherent (w : World) (acts : list Action) :
  coherent api (page (play api w acts)).
Proof. apply coherent_fold, coherent_mounted. Qed.

Lemma provenance_then_run {A} (m : M ClientId Blob World A)
    (s : Sigma ClientId Blob World) :
  provenance s ->
  (let F := fetched [] (trace s) in
   let r := run m (page s) (world s) in
   allocated_in_run F (trace (snd r)) = true /\
   (forall row res, In (EvAppend row res) (trace (snd r)) ->
                    In (receipt_number row) (fetched F (trace (snd r)))) /\
   (correlative (page (snd r)) = "" \/
    In (correlative (page (snd r))) (fetched F (trace (snd r))))) ->
  provenance (then_run m s).
Proof.
  intros (Ha & Hrows & Hc) (Ha' & Hrows' & Hc').
  unfold provenance, then_run. cbn [trace page].
  rewrite allocated_app, fetched_app, Ha, Ha'. split; [reflexivity|].
  split; [|exact Hc'].
  intros row r Hin. apply in_app_or in Hin as [Hin | Hin].
  - apply fetched_keeps. eapply Hrows; eassumption.
  - eapply Hrows'; eassumption.
Qed.

Lemma known_mounted (w : World) :
  provenance (current (mounted api w)) /\ answers_known (mounted api w).
Proof.
  unfold mounted, answers_known, provenance, then_run.
  cbn [current awaited page world trace]. rewrite mount_run.
  cbn [snd page world trace app initial_page correlative].
  destruct (fst (fetchNextReceiptCorrelative api w)) as [c|e]; cbn;
    repeat split; auto;
    try (intros row r [E | []]; discriminate);
    intros c' [E | []]; try discriminate; injection E as <-; auto.
Qed.

Lemma known_perform (s : Session ClientId Blob World) (a : Action) :
  provenance (current s) /\ answers_known s ->
  provenance (current (perform api s a)) /\ answers_known (perform api s a).
Proof.
  intros [Hp Hk]. destruct a as [d f m c mp no| | |i]; unfold perform.
  - split; [exact Hp | exact Hk].
  - split.
    + cbn [current]. apply provenance_then_run; [exact Hp|].
      destruct Hp as (_ & _ & Hc).
      search_cases api (page (current s)) (world (current s)); cbn;
        (split; [reflexivity|]);
        (split; [intros row res Hin; in_trace Hin|]);
        exact Hc.
    + intros c Hin. cbn [current awaited then_run trace] in *.
      rewrite fetched_app. apply fetched_keeps, Hk, Hin.
  - split.
    + cbn [current]. apply provenance_then_run; [exact Hp|].
      destruct Hp as (_ & _ & Hc).
      submit_cases api (form (page (current s))) (page (current s))
        (world (current s));
        try match goal with
          | G : guard_passes _ _ _ |- _ =>
              destruct G as (_ & _ & Hne);
              destruct Hc as [Hc | Hc]; [congruence|]
          end;
        try match goal with a : Result string |- _ => destruct a end;
        cbn; rewrite ?(seen_correlative _ _ Hc); cbn;
        (split; [reflexivity|]);
        (split; [intros row res Hin; in_trace Hin;
                 injection Hin as <- _; cbn; auto |]);
        auto.
    + intros c Hin. cbn [current awaited then_run trace] in *.
      rewrite fetched_app. apply in_app_or in Hin as [Hin | Hin].
      * apply fetched_keeps, Hk, Hin.
      * apply answers_fetched, Hin.
  - destruct (take_out i (awaited s)) as [[answer rest]|] eqn:E;
      [|split; [exact Hp | exact Hk]].
    destruct (take_out_In _ _ _ _ E) as [Hanswer Hrest].
    split.
    + cbn [current]. apply provenance_then_run; [exact Hp|].
      cbn zeta. rewrite resume_run.
      destruct Hp as (_ & _ & Hc).
      destruct answer as [c|e]; cbn;
        (split; [reflexivity|]);
        (split; [intros row res Hin; in_trace Hin|]).
      * right. apply Hk, Hanswer.
      * exact Hc.
    + intros c Hin. cbn [current awaited then_run trace] in *.
      rewrite fetched_app. apply fetched_keeps, Hk, Hrest, Hin.
Qed.

Lemma known_fold (acts : list Action) (s : Session ClientId Blob World) :
  provenance (current s) /\ answers_known s ->
  provenance (current (fold_left (perform api) acts s)).
Proof.
  revert s. induction acts as [|a acts IH]; intros s Hs; [exact (proj1 Hs)|].
  cbn. apply IH, known_perform, Hs.
Qed.

End SessionLemmas.

Section SessionProperties.

Context {ClientId Blob World : Type}.
Variable api : Api ClientId Blob World.

(** X13: after the page is mounted and after every action of the operator
    (editing the inputs, searching, submitting), no handler is left
    running and the member fields of the form are those of the member
    that is loaded, whose identifier is truthy; so a receipt submitted
    from such a page prints the name shown in the read-only name field. *)
Theorem session_pages_are_coherent (w : World) (acts : list Action) :
  let s := play api w acts in
  coherent api (page s) /\
  forall d r,
    In (EvRender d r)
       (trace (snd (run (onSubmit api (form (page s))) (page s) (world s)))) ->
    client_full_name d = client_name (receipt_values d).
Proof.
  intros s. pose proof (play_coherent api w acts) as Hc. fold s in Hc.
  split; [exact Hc|]. destruct Hc as (_ & _ & Hm).
  submit_cases api (form (page s)) (page s) (world s); cbn [snd trace];
    intros d r Hin; in_trace Hin; injection Hin as <- _; cbn;
    match goal with G : guard_passes _ _ _ |- _ => destruct G as (Hc & _) end;
    rewrite Hc in Hm; destruct Hm as (_ & Hn & _); congruence.
Qed.

(** X14: in every page a session reaches, an enabled submit button means
    that [onSubmit] passes its guard: its first act is to import the PDF
    generator, never the notification of incomplete data. *)
Theorem enabled_submit_starts_saga (w : World) (acts : list Action) :
  let s := play api w acts in
  submit_disabled (page s) = false ->
  exists res rest,
    trace (snd (run (onSubmit api (form (page s))) (page s) (world s)))
    = EvImport res :: rest.
Proof.
  intros s Hb. pose proof (play_coherent api w acts) as Hc. fold s in Hc.
  destruct Hc as (_ & _ & Hm).
  unfold submit_disabled in Hb.
  apply orb_false_iff in Hb as [Hb Hk].
  apply orb_false_iff in Hb as [_ Hcd].
  submit_cases api (form (page s)) (page s) (world s); cbn [snd trace];
    eauto.
  exfalso.
  match goal with G : guard_fails _ _ |- _ =>
    destruct G as [Hf | [(c & Hf & Hfid) | Hf]] end.
  - rewrite Hf in Hcd. discriminate.
  - rewrite Hf in Hm. destruct Hm as (Hid & _). congruence.
  - rewrite Hf in Hk. discriminate.
Qed.

(** X15: over a whole session, from the mounting of the page on, every
    receipt is rendered under a value that a successful call to the
    sequencer returned earlier in the session, every row handed to the
    ledger carries such a value, and so does the page, unless it holds no
    correlative: the page never makes up or alters a number. *)
Theorem session_numbers_come_from_sequencer (w : World) (acts : list Action) :
  let s := play api w acts in
  allocated_in_run [] (trace s) = true /\
  (forall row r, In (EvAppend row r) (trace s) ->
                 In (receipt_number row) (fetched [] (trace s))) /\
  (correlative (page s) = "" \/
   In (correlative (page s)) (fetched [] (trace s))).
Proof.
  apply (known_fold api acts (mounted api w)), known_mounted.
Qed.

End SessionProperties.

(** ** The operation number written to the ledger *)

(** Case analysis on a character known to be a decimal digit. *)
Ltac digit_cases c H :=
  destruct c as [[] [] [] [] [] [] [] []]; try discriminate H.

Lemma digit_is_not_space (c : ascii) :
  decimal_digit c = true -> JsString.is_ws c = false.
Proof. intros H. digit_cases c H; reflexivity. Qed.

Lemma drop_ws_digits (l : list ascii) :
  forallb decimal_digit l = true -> JsString.drop_ws l = l.
Proof.
  destruct l as [|c l]; [reflexivity|]. cbn [forallb JsString.drop_ws].
  intros H. apply andb_true_iff in H as [Hc _].
  rewrite (digit_is_not_space c Hc). reflexivity.
Qed.

Lemma forallb_rev_digits (l : list ascii) :
  forallb decimal_digit l = true -> forallb decimal_digit (rev l) = true.
Proof.
  rewrite !forallb_forall. intros H c Hin. apply H, in_rev, Hin.
Qed.

Lemma trim_digits (l : list ascii) :
  forallb decimal_digit l = true -> JsString.trim l = l.
Proof.
  intros H. unfold JsString.trim.
  rewrite (drop_ws_digits l H).
  rewrite (drop_ws_digits (rev l) (forallb_rev_digits l H)).
  apply rev_involutive.
Qed.

Lemma drop_ws_blank (l : list ascii) :
  forallb JsString.is_ws l = true -> JsString.drop_ws l = [].
Proof.
  induction l as [|c l IH]; [reflexivity|]. cbn [forallb JsString.drop_ws].
  intros H. apply andb_true_iff in H as [Hc Hl]. rewrite Hc. exact (IH Hl).
Qed.

Lemma cut_digits (p : ascii -> bool) (l : list ascii) :
  (forall c, decimal_digit c = true -> p c = false) ->
  forallb decimal_digit l = true ->
  JsString.cut p l = (l, None).
Proof.
  intros Hp. induction l as [|c l IH]; [reflexivity|].
  cbn [forallb JsString.cut]. intros H.
  apply andb_true_iff in H as [Hc Hl].
  rewrite (Hp c Hc), (IH Hl). reflexivity.
Qed.

Lemma digits_from_digits (acc : Z) (l : list ascii) :
  forallb decimal_digit l = true ->
  exists n, JsString.digits_from 10 acc l = Some n.
Proof.
  revert acc. induction l as [|c l IH]; intros acc; [cbn; eauto|].
  cbn [forallb JsString.digits_from]. intros H.
  apply andb_true_iff in H as [Hc Hl]. unfold decimal_digit in Hc.
  destruct (JsString.digit_of 10 c); [apply IH, Hl | discriminate].
Qed.

Lemma Qred_integer (n : Z) :
  Qred (inject_Z (n * 10 ^ 0 + 0) * Qpower (10 # 1) (0 - 0)) = inject_Z n.
Proof.
  change (Qpower (10 # 1) (0 - 0)) with (1 # 1)%Q.
  unfold inject_Z, Qmult. cbn [Qnum Qden].
  replace ((n * 10 ^ 0 + 0) * 1)%Z with n by (cbn; lia).
  change (1 * 1)%positive with 1%positive. unfold Qred.
  pose proof (Z.ggcd_gcd n 1) as Hg.
  pose proof (Z.ggcd_correct_divisors n 1) as Hdiv.
  destruct (Z.ggcd n 1) as [g [a b]]. cbn [fst snd] in *.
  rewrite Z.gcd_1_r in Hg. subst g. destruct Hdiv as [Ha Hb].
  replace a with n by lia. replace b with 1%Z by lia. reflexivity.
Qed.

Lemma unsigned_decimal_digits (l : list ascii) (n : Z) :
  l <> [] ->
  forallb decimal_digit l = true ->
  JsString.digits_from 10 0 l = Some n ->
  JsString.unsigned_decimal l = Some (inject_Z n).
Proof.
  intros Hne Hd Hn. unfold JsString.unsigned_decimal.
  rewrite (cut_digits _ l); [|intros c Hc; digit_cases c Hc; reflexivity
                            |exact Hd].
  rewrite (cut_digits _ l); [|intros c Hc; digit_cases c Hc; reflexivity
                            |exact Hd].
  rewrite Hn. cbn [JsString.digits_from List.length Z.of_nat].
  destruct l as [|c l]; [congruence|].
  rewrite Qred_integer. reflexivity.
Qed.

(** [Number] of a string of decimal digits is the integer they write. *)
Lemma Number_digits (l : list ascii) :
  l <> [] ->
  forallb decimal_digit l = true ->
  exists n,
    JsString.digits_from 10 0 l = Some n /\
    JsString.Number (string_of_list_ascii l) = Finite (inject_Z n).
Proof.
  intros Hne Hd.
  destruct (digits_from_digits 0 l Hd) as [n Hn]. exists n.
  split; [exact Hn|].
  pose proof (unsigned_decimal_digits l n Hne Hd Hn) as Hu.
  unfold JsString.Number.
  rewrite list_ascii_of_string_of_list_ascii, (trim_digits l Hd).
  assert (Hs : JsString.str_decimal l = Finite (inject_Z n)).
  { unfold JsString.str_decimal.
    destruct l as [|c l]; [congruence|].
    pose proof Hd as Hd'. cbn [forallb] in Hd'.
    apply andb_true_iff in Hd' as [Hc _].
    digit_cases c Hc;
      match goal with
      | |- context [JsString.list_ascii_eqb ?b _] =>
          change (JsString.list_ascii_eqb b JsString.infinity_lit) with false
      end; cbn iota; rewrite Hu; reflexivity. }
  destruct l as [|c l]; [congruence|].
  pose proof Hd as Hd'. cbn [forallb] in Hd'.
  apply andb_true_iff in Hd' as [Hc Hl].
  digit_cases c Hc; try exact Hs.
  destruct l as [|c2 l]; [exact Hs|].
  cbn [forallb] in Hl. apply andb_true_iff in Hl as [Hc2 _].
  digit_cases c2 Hc2; exact Hs.
Qed.

(** [Number] of a blank string is zero. *)
Lemma Number_blank (s : string) :
  forallb JsString.is_ws (list_ascii_of_string s) = true ->
  JsString.Number s = Finite 0.
Proof.
  intros H. unfold JsString.Number, JsString.trim.
  rewrite (drop_ws_blank _ H). reflexivity.
Qed.

(** X16: under "BBVA Empresa", an operation number made of decimal digits
    is written to the ledger as the integer those digits spell; a zero in
    front changes nothing, so operation numbers that differ only by
    leading zeros end up as the same number.  The number is kept to at
    most 15 digits, which a JavaScript number holds exactly. *)
Theorem digits_operation_number_drops_leading_zeros {ClientId : Type}
    (values : ReciboPagoFormValues ClientId) (c : string)
    (client : Client ClientId) :
  metodo_pago values = "BBVA Empresa" ->
  numero_operacion values <> "" ->
  String.length (numero_operacion values) <= 15 ->
  forallb decimal_digit (list_ascii_of_string (numero_operacion values))
    = true ->
  exists n,
    JsString.digits_from 10 0 (list_ascii_of_string (numero_operacion values))
      = Some n /\
    numeroOperacion (build_incomeData values c client)
      = Some (Finite (inject_Z n)) /\
    numeroOperacion
      (build_incomeData
         (mkValues (dni values) (client_name values) (client_id values)
            (fecha_emision values) (monto values) (concepto values)
            (metodo_pago values) (String "0" (numero_operacion values)))
         c client)
      = Some (Finite (inject_Z n)).
Proof.
  intros Hm Hne _ Hd.
  set (l := list_ascii_of_string (numero_operacion values)) in *.
  assert (Hl : l <> []).
  { intros E. apply Hne. rewrite <- (string_of_list_ascii_of_string
      (numero_operacion values)). fold l. rewrite E. reflexivity. }
  destruct (Number_digits l Hl Hd) as (n & Hn & HN).
  assert (Hd0 : forallb decimal_digit ("0"%char :: l) = true)
    by (cbn [forallb]; rewrite Hd; reflexivity).
  destruct (Number_digits ("0"%char :: l) ltac:(discriminate) Hd0)
    as (n0 & Hn0 & HN0).
  change (JsString.digits_from 10 0 ("0"%char :: l))
    with (JsString.digits_from 10 0 l) in Hn0.
  assert (n0 = n) by congruence. subst n0.
  exists n. split; [exact Hn|].
  unfold build_incomeData. cbn [numeroOperacion metodo_pago numero_operacion].
  rewrite Hm. cbn [String.eqb Ascii.eqb Bool.eqb].
  subst l. rewrite string_of_list_ascii_of_string in HN.
  cbn [string_of_list_ascii] in HN0.
  rewrite string_of_list_ascii_of_string in HN0.
  rewrite HN, HN0. split; reflexivity.
Qed.

(** X17: under "BBVA Empresa", an operation number that is blank (empty,
    or spaces, tabs and line breaks only) is written to the ledger as the
    number 0. *)
Theorem blank_operation_number_is_zero {ClientId : Type}
    (values : ReciboPagoFormValues ClientId) (c : string)
    (client : Client ClientId) :
  metodo_pago values = "BBVA Empresa" ->
  forallb JsString.is_ws (list_ascii_of_string (numero_operacion values))
    = true ->
  numeroOperacion (build_incomeData values c client) = Some (Finite 0).
Proof.
  intros Hm Hb. unfold build_incomeData. cbn [numeroOperacion].
  rewrite Hm, (Number_blank _ Hb). reflexivity.
Qed.

(** ** The further properties at work in the scripted world *)

Lemma search_refuses_dni_of_wrong_length_witness :
  String.length (dni (form SessionSamples.short_dni)) <> 8 /\
  run (handleDniSearch Scripted.api) SessionSamples.short_dni
      Samples.two_fetches
  = (Ok tt, mkSigma SessionSamples.short_dni Samples.two_fetches
              [EvToast invalid_dni_toast]).
Proof.
  assert (H : String.length (dni (form SessionSamples.short_dni)) <> 8)
    by (cbn; discriminate).
  split; [exact H|].
  exact (search_refuses_dni_of_wrong_length Scripted.api
           SessionSamples.short_dni Samples.two_fetches H).
Defined.

Lemma search_replaces_member_witness :
  String.length (dni (form Samples.no_member)) = 8 /\
  clientData
    (page (snd (run (handleDniSearch Scripted.api) Samples.no_member
                    Samples.two_fetches))) = Some Scripted.member.
Proof.
  split; [reflexivity|].
  pose proof (search_replaces_member Scripted.api Samples.no_member
                Samples.two_fetches eq_refl) as (_ & _ & H).
  exact (proj1 H).
Defined.

Lemma enabled_search_button_queries_directory_witness :
  search_disabled Samples.no_member = false /\
  String.length (dni (form Samples.no_member)) = 8.
Proof.
  split; [reflexivity|].
  exact (proj1 (enabled_search_button_queries_directory Scripted.api
                  Samples.no_member Samples.two_fetches eq_refl)).
Defined.

Lemma receipt_and_ledger_row_agree_witness :
  (In (EvRender (receiptData_of Scripted.cash
                   (Scripted.ready "R-00042" Scripted.cash) Scripted.member)
         (Ok "pdf"))
      (trace (snd (run (onSubmit Scripted.api Scripted.cash)
                       (Scripted.ready "R-00042" Scripted.cash)
                       Scripted.all_fine))) /\
   In (EvAppend (build_incomeData Scripted.cash "R-00042" Scripted.member)
         (Ok tt))
      (trace (snd (run (onSubmit Scripted.api Scripted.cash)
                       (Scripted.ready "R-00042" Scripted.cash)
                       Scripted.all_fine)))) /\
  receipt_number (build_incomeData Scripted.cash "R-00042" Scripted.member)
  = receipt_correlative
      (receiptData_of Scripted.cash (Scripted.ready "R-00042" Scripted.cash)
         Scripted.member).
Proof.
  assert (H1 : In (EvRender (receiptData_of Scripted.cash
                     (Scripted.ready "R-00042" Scripted.cash) Scripted.member)
                     (Ok "pdf"))
                  (trace (snd (run (onSubmit Scripted.api Scripted.cash)
                                   (Scripted.ready "R-00042" Scripted.cash)
                                   Scripted.all_fine)))).
  { vm_compute. right. left. reflexivity. }
  assert (H2 : In (EvAppend (build_incomeData Scripted.cash "R-00042"
                               Scripted.member) (Ok tt))
                  (trace (snd (run (onSubmit Scripted.api Scripted.cash)
                                   (Scripted.ready "R-00042" Scripted.cash)
                                   Scripted.all_fine)))).
  { vm_compute. do 3 right. left. reflexivity. }
  split; [split; assumption|].
  exact (proj1 (proj2 (receipt_and_ledger_row_agree Scripted.api Scripted.cash
                         (Scripted.ready "R-00042" Scripted.cash)
                         Scripted.all_fine
                         (receiptData_of Scripted.cash
                            (Scripted.ready "R-00042" Scripted.cash)
                            Scripted.member)
                         (Ok "pdf")
                         (build_incomeData Scripted.cash "R-00042"
                            Scripted.member)
                         (Ok tt) H1 H2))).
Defined.

Lemma stored_blob_is_rendered_blob_witness :
  In (EvPut "pdf" "R-00042" 7 (Ok tt))
     (trace (snd (run (onSubmit Scripted.api Scripted.cash)
                      (Scripted.ready "R-00042" Scripted.cash)
                      Scripted.all_fine))) /\
  exists d client,
    In (EvRender d (Ok "pdf"))
       (trace (snd (run (onSubmit Scripted.api Scripted.cash)
                        (Scripted.ready "R-00042" Scripted.cash)
                        Scripted.all_fine))) /\
    "R-00042" = receipt_correlative d /\
    clientData (Scripted.ready "R-00042" Scripted.cash) = Some client /\
    7 = id client /\
    client_full_name d = razon_social client /\
    client_dni d = numero_documento client.
Proof.
  assert (H : In (EvPut "pdf" "R-00042" 7 (Ok tt))
                 (trace (snd (run (onSubmit Scripted.api Scripted.cash)
                                  (Scripted.ready "R-00042" Scripted.cash)
                                  Scripted.all_fine)))).
  { vm_compute. do 2 right. left. reflexivity. }
  split; [exact H|].
  exact (stored_blob_is_rendered_blob Scripted.api Scripted.cash
           (Scripted.ready "R-00042" Scripted.cash) Scripted.all_fine
           "pdf" "R-00042" 7 (Ok tt) H).
Defined.

Lemma accepted_row_resets_page_witness :
  In (EvAppend (build_incomeData Scripted.cash "R-00042" Scripted.member)
        (Ok tt))
     (trace (snd (run (onSubmit Scripted.api Scripted.cash)
                      (Scripted.ready "R-00042" Scripted.cash)
                      Scripted.all_fine))) /\
  clientData (page (snd (run (onSubmit Scripted.api Scripted.cash)
                             (Scripted.ready "R-00042" Scripted.cash)
                             Scripted.all_fine))) = None.
Proof.
  assert (H : In (EvAppend (build_incomeData Scripted.cash "R-00042"
                              Scripted.member) (Ok tt))
                 (trace (snd (run (onSubmit Scripted.api Scripted.cash)
                                  (Scripted.ready "R-00042" Scripted.cash)
                                  Scripted.all_fine)))).
  { vm_compute. do 3 right. left. reflexivity. }
  split; [exact H|].
  exact (proj1 (accepted_row_resets_page Scripted.api Scripted.cash
                  (Scripted.ready "R-00042" Scripted.cash) Scripted.all_fine
                  (build_incomeData Scripted.cash "R-00042" Scripted.member)
                  H)).
Defined.

Lemma enabled_submit_starts_saga_witness :
  let s := play Scripted.api Samples.two_fetches
             SessionSamples.type_and_search in
  submit_disabled (page s) = false /\
  exists res rest,
    trace (snd (run (onSubmit Scripted.api (form (page s))) (page s)
                    (world s)))
    = EvImport res :: rest.
Proof.
  assert (H : submit_disabled
                (page (play Scripted.api Samples.two_fetches
                         SessionSamples.type_and_search)) = false)
    by (vm_compute; reflexivity).
  split; [exact H|].
  exact (enabled_submit_starts_saga Scripted.api Samples.two_fetches
           SessionSamples.type_and_search H).
Defined.

Lemma digits_operation_number_drops_leading_zeros_witness :
  (metodo_pago (Scripted.bank "00123") = "BBVA Empresa" /\
   numero_operacion (Scripted.bank "00123") <> "" /\
   String.length (numero_operacion (Scripted.bank "00123")) <= 15) /\
  exists n,
    JsString.digits_from 10 0
      (list_ascii_of_string (numero_operacion (Scripted.bank "00123")))
      = Some n /\
    numeroOperacion (build_incomeData (Scripted.bank "00123") "R-00042"
                       Scripted.member)
      = Some (Finite (inject_Z n)).
Proof.
  assert (H : numero_operacion (Scripted.bank "00123") <> "")
    by (cbn; discriminate).
  assert (L : String.length (numero_operacion (Scripted.bank "00123")) <= 15)
    by (cbn; lia).
  split; [split; [reflexivity | split; [exact H | exact L]]|].
  destruct (digits_operation_number_drops_leading_zeros
              (Scripted.bank "00123") "R-00042" Scripted.member
              eq_refl H L eq_refl) as (n & Hn & Hrow & _).
  exists n. split; [exact Hn | exact Hrow].
Defined.

Lemma blank_operation_number_is_zero_witness :
  metodo_pago (Scripted.bank "  ") = "BBVA Empresa" /\
  numeroOperacion (build_incomeData (Scripted.bank "  ") "R-00042"
                     Scripted.member)
    = Some (Finite 0).
Proof.
  split; [reflexivity|].
  exact (blank_operation_number_is_zero (Scripted.bank "  ") "R-00042"
           Scripted.member eq_refl eq_refl).
Defined.

(** The DNI written to the ledger is the one in the input at submit time:
    when the operator changes it after the search, the row names the
    loaded member but carries the new DNI, while the receipt prints the
    document number of the member. *)
Example ledger_dni_is_the_typed_one :
  let edited := mkValues "87654321" "Ana Quispe" (Some 7) "2024-05-01"
                  (Finite (250 # 1)) "Elaboracion de Expediente Tecnico"
                  "Efectivo" "" in
  let r := run (onSubmit Scripted.api edited)
               (Scripted.ready "R-00042" edited) Scripted.all_fine in
  map client_dni
      (flat_map (fun e => match e with EvRender d _ => [d] | _ => [] end)
         (trace (snd r))) = ["12345678"] /\
  map income_dni
      (flat_map (fun e => match e with EvAppend row _ => [row] | _ => [] end)
         (trace (snd r))) = ["87654321"].
Proof. vm_compute. repeat split. Qed.

Section MoreSubmitProperties.

Context {ClientId Blob World : Type}.
Variable api : Api ClientId Blob World.

(** X18: the guard of [onSubmit] and the submit button differ on
    [isSubmitting]: a button that is disabled while no submission is in
    flight means that the guard stops [onSubmit], which then shows "Datos
    Incompletos" and calls nothing; but on any page that passes the guard
    the button is disabled exactly when [isSubmitting] is set, and
    [onSubmit], were it called all the same, would start the saga again
    with the import of the PDF generator. *)
Theorem submit_guard_ignores_isSubmitting
    (values : ReciboPagoFormValues ClientId) (p : PageState ClientId)
    (w : World) :
  (isSubmitting p = false ->
   submit_disabled p = true ->
   run (onSubmit api values) p w
   = (Ok tt, mkSigma p w [EvToast incomplete_toast])) /\
  (forall client,
     guard_passes api p client ->
     submit_disabled p = isSubmitting p /\
     exists res rest,
       trace (snd (run (onSubmit api values) p w)) = EvImport res :: rest).
Proof.
  split.
  - intros Hsub Hb. unfold submit_disabled in Hb. rewrite Hsub in Hb.
    cbn [orb] in Hb.
    submit_cases api values p w; try reflexivity; exfalso;
      match goal with G : guard_passes _ _ _ |- _ =>
        destruct G as (Hcd & _ & Hne) end;
      rewrite Hcd in Hb; cbn [orb] in Hb;
      (destruct (correlative p); [congruence | discriminate]).
  - intros client G. split.
    + destruct G as (Hcd & _ & Hne). unfold submit_disabled. rewrite Hcd.
      destruct (correlative p); [congruence|].
      destruct (isSubmitting p); reflexivity.
    + submit_cases api values p w; cbn [snd trace]; eauto.
      exfalso. eapply guard_exclusive; eauto.
Qed.

(** X19: when a run of [onSubmit] has called the sequencer, it has
    recorded exactly one row, under the cached correlative, shown the
    success notification and nothing else, and it returns with that same
    correlative still cached: the answer is not awaited.  When the answer
    arrives, on whatever page is then shown, a value becomes the cached
    correlative and nothing is shown, while an error leaves the page as
    it is and shows "Error de Correlativo". *)
Theorem correlative_after_accepted_receipt
    (values : ReciboPagoFormValues ClientId) (p : PageState ClientId)
    (w : World) (answer : Result string) :
  let r := run (onSubmit api values) p w in
  In (EvFetchNext answer) (trace (snd r)) ->
  recorded (trace (snd r)) = [correlative p] /\
  correlative (page (snd r)) = correlative p /\
  (exists blob,
     toasts (trace (snd r)) = [success_toast (correlative p) blob]) /\
  forall (q : PageState ClientId) (w' : World),
    let r' := run (loadCorrelative_resume (Blob:=Blob) answer) q w' in
    match answer with
    | Ok next =>
        page (snd r')
        = mkPage (isSearching q) (isSubmitting q) next (clientData q)
            (form q) /\
        toasts (trace (snd r')) = []
    | Throw e =>
        page (snd r') = q /\
        toasts (trace (snd r')) = [correlative_toast]
    end.
Proof.
  submit_cases api values p w; cbn [snd trace]; intros Hin; in_trace Hin.
  injection Hin as <-. cbn. repeat split; eauto.
  intros q w'.
  match goal with a : Result string |- _ => destruct a end;
    cbn; split; reflexivity.
Qed.

(** X20: once the ledger has accepted a row, submitting again straight
    away, with whatever values and in whatever world, does nothing but
    show "Datos Incompletos": a second receipt needs a new search. *)
Theorem accepted_row_blocks_resubmission
    (values values' : ReciboPagoFormValues ClientId) (p : PageState ClientId)
    (w w' : World) (row : IncomeData) :
  let r := run (onSubmit api values) p w in
  In (EvAppend row (Ok tt)) (trace (snd r)) ->
  run (onSubmit api values') (page (snd r)) w'
  = (Ok tt, mkSigma (page (snd r)) w' [EvToast incomplete_toast]).
Proof.
  intros r Ha.
  assert (Hc : clientData (page (snd r)) = None).
  { subst r. revert Ha.
    submit_cases api values p w; cbn [snd trace]; intros Ha; in_trace Ha;
      reflexivity. }
  submit_cases api values' (page (snd r)) w'; try reflexivity;
    match goal with G : guard_passes _ _ _ |- _ =>
      destruct G as (Hcd & _) end; congruence.
Qed.

End MoreSubmitProperties.

(** A page with a submission in flight. *)
Lemma submit_guard_ignores_isSubmitting_witness :
  let in_flight := mkPage false true "R-00042" (Some Scripted.member)
                     Scripted.cash in
  guard_passes Scripted.api in_flight Scripted.member /\
  submit_disabled in_flight = true /\
  exists res rest,
    trace (snd (run (onSubmit Scripted.api Scripted.cash) in_flight
                    Scripted.all_fine))
    = EvImport res :: rest.
Proof.
  intros in_flight.
  assert (G : guard_passes Scripted.api in_flight Scripted.member).
  { repeat split. discriminate. }
  split; [exact G|].
  exact (proj2 (submit_guard_ignores_isSubmitting Scripted.api Scripted.cash
                  in_flight Scripted.all_fine) Scripted.member G).
Defined.

Lemma correlative_after_accepted_receipt_witness :
  In (EvFetchNext (Ok "R-00043"))
     (trace (snd (run (onSubmit Scripted.api Scripted.cash)
                      (Scripted.ready "R-00042" Scripted.cash)
                      Scripted.all_fine))) /\
  correlative (page (snd (run (onSubmit Scripted.api Scripted.cash)
                              (Scripted.ready "R-00042" Scripted.cash)
                              Scripted.all_fine))) = "R-00042".
Proof.
  assert (H : In (EvFetchNext (Ok "R-00043"))
                 (trace (snd (run (onSubmit Scripted.api Scripted.cash)
                                  (Scripted.ready "R-00042" Scripted.cash)
                                  Scripted.all_fine)))).
  { vm_compute. do 5 right. left. reflexivity. }
  split; [exact H|].
  exact (proj1 (proj2 (correlative_after_accepted_receipt Scripted.api
                         Scripted.cash
                         (Scripted.ready "R-00042" Scripted.cash)
                         Scripted.all_fine (Ok "R-00043") H))).
Defined.

Lemma accepted_row_blocks_resubmission_witness :
  In (EvAppend (build_incomeData Scripted.cash "R-00042" Scripted.member)
        (Ok tt))
     (trace (snd (run (onSubmit Scripted.api Scripted.cash)
                      (Scripted.ready "R-00042" Scripted.cash)
                      Scripted.all_fine))) /\
  fst (run (onSubmit Scripted.api Scripted.cash)
           (page (snd (run (onSubmit Scripted.api Scripted.cash)
                           (Scripted.ready "R-00042" Scripted.cash)
                           Scripted.all_fine)))
           Scripted.all_fine)
  = Ok tt.
Proof.
  assert (H : In (EvAppend (build_incomeData Scripted.cash "R-00042"
                              Scripted.member) (Ok tt))
                 (trace (snd (run (onSubmit Scripted.api Scripted.cash)
                                  (Scripted.ready "R-00042" Scripted.cash)
                                  Scripted.all_fine)))).
  { vm_compute. do 3 right. left. reflexivity. }
  split; [exact H|].
  exact (f_equal fst (accepted_row_blocks_resubmission Scripted.api
                        Scripted.cash Scripted.cash
                        (Scripted.ready "R-00042" Scripted.cash)
                        Scripted.all_fine Scripted.all_fine
                        (build_incomeData Scripted.cash "R-00042"
                           Scripted.member) H)).
Defined.
